(** * Daily-problem tracker, points ledger and stream finder

    A shallow embedding of [src/final.py], the unified server, together
    with the properties of its cooldown and points state machine. Its
    tracker half is the code of [src/dsaQuestion.py], whose reply texts
    differ only in the bytes of their decorative glyphs, and its stream
    half is the code of [src/starter.py].

    Conventions of the embedding:
    - a Python [str] is the list of its Unicode code points;
    - a Python [int] is a [Z], a Python [float] a binary64 [float];
    - [user_points] and [user_current_problem] are only ever looked up, so
      they are finite maps; [user_last_request] is iterated by the sweep,
      so it keeps Python's insertion order as an association list;
    - every coroutine is run to completion as one step (the interleavings
      at [await] are outside this model); it threads the module-level
      dictionaries as a [store] and may end by raising;
    - what the network answers is an oracle: the outcome of the k-th
      request to LeetCode, of a Twitch lookup by its parameters, of the
      GET of a YouTube URL as the code puts it together. *)

From Stdlib Require Import ZArith NArith List String Ascii Floats DecimalString Lia.
From stdpp Require Import gmap list.
Import ListNotations.

Local Open Scope list_scope.

(** ** Python strings *)

Abbreviation pystr := (list N).

Module PyStr.

(** A literal of ASCII characters. *)
Definition lit (s : string) : pystr :=
  List.map N_of_ascii (list_ascii_of_string s).

(** [str.isspace] on one code point: the table of CPython's
    [_PyUnicode_IsWhitespace]. *)
Definition isspace (c : N) : bool :=
  ((9 <=? c) && (c <=? 13) || (28 <=? c) && (c <=? 32)
   || (c =? 0x85) || (c =? 0xA0) || (c =? 0x1680)
   || (0x2000 <=? c) && (c <=? 0x200A)
   || (c =? 0x2028) || (c =? 0x2029) || (c =? 0x202F)
   || (c =? 0x205F) || (c =? 0x3000))%N.

Fixpoint lstrip (s : pystr) : pystr :=
  match s with
  | [] => []
  | c :: r => if isspace c then lstrip r else s
  end.

Definition rstrip (s : pystr) : pystr := rev (lstrip (rev s)).

(** [s.strip()] *)
Definition strip (s : pystr) : pystr := rstrip (lstrip s).

(** Truth value of a string or of a list: non-empty. *)
Definition nonempty {A} (l : list A) : bool :=
  match l with [] => false | _ :: _ => true end.

(** [sep.join(parts)] *)
Fixpoint join (sep : pystr) (parts : list pystr) : pystr :=
  match parts with
  | [] => []
  | [x] => x
  | x :: r => x ++ sep ++ join sep r
  end.

(** [str(n)] for an [int]: its decimal numeral, with a sign if negative. *)
Definition of_int (n : Z) : pystr :=
  lit (NilZero.string_of_int (Z.to_int n)).

(** [needle in hay] *)
Definition contains (needle hay : pystr) : Prop :=
  exists pre post, hay = pre ++ needle ++ post.

(** The text consists of white space only (the empty text included). *)
Definition blank (s : pystr) : bool := forallb isspace s.

End PyStr.

(** ** Insertion-ordered dictionaries *)

Module PyDict.

Definition t (V : Type) := list (pystr * V).

Definition empty {V} : t V := [].

(** [d.get(k)] *)
Fixpoint get {V} (k : pystr) (d : t V) : option V :=
  match d with
  | [] => None
  | (k', v) :: r => if decide (k = k') then Some v else get k r
  end.

(** [d[k] = v]: an existing key keeps its place, a new one goes last. *)
Fixpoint set {V} (k : pystr) (v : V) (d : t V) : t V :=
  match d with
  | [] => [(k, v)]
  | (k', v') :: r =>
      if decide (k = k') then (k', v) :: r else (k', v') :: set k v r
  end.

(** [list(d.items())] *)
Definition items {V} (d : t V) : list (pystr * V) := d.

(** No key occurs twice. *)
Definition wf {V} (d : t V) : Prop := NoDup (List.map fst d).

End PyDict.

(** ** Python exceptions and results *)

Inductive pyexn : Type :=
| TransportError   (* raised by httpx when the request fails *)
| JSONDecodeError  (* raised by [resp.json()] on a body that is not JSON *)
| AttributeError
| KeyError
| TypeError.

Inductive result (A : Type) : Type :=
| Ok (a : A)
| Raise (e : pyexn).
Arguments Ok {A} a.
Arguments Raise {A} e.

Definition rbind {A B} (r : result A) (k : A -> result B) : result B :=
  match r with
  | Ok a => k a
  | Raise e => Raise e
  end.

Notation "'let?' x := r 'in' k" := (rbind r (fun x => k))
  (at level 10, x name, r at level 100, k at level 200).

(** ** JSON values as [resp.json()] builds them *)

#[local] Set Warnings "-register-all".

Inductive json : Type :=
| JNull
| JBool (b : bool)
| JInt (z : Z)
| JFloat (f : float)
| JStr (s : pystr)
| JArr (l : list json)
| JObj (d : list (pystr * json)).

Module Json.

(** Truth value of a Python object. *)
Definition truthy (v : json) : bool :=
  match v with
  | JNull => false
  | JBool b => b
  | JInt z => negb (z =? 0)%Z
  | JFloat f => negb (PrimFloat.eqb f 0%float)
  | JStr s => PyStr.nonempty s
  | JArr l => PyStr.nonempty l
  | JObj d => PyStr.nonempty d
  end.

(** [v.get(key, dflt)]: only a dict has the method. *)
Definition get (v : json) (key : pystr) (dflt : json) : result json :=
  match v with
  | JObj d => Ok (default dflt (PyDict.get key d))
  | _ => Raise AttributeError
  end.

(** [v[key]] for a string key. *)
Definition getitem (v : json) (key : pystr) : result json :=
  match v with
  | JObj d =>
      match PyDict.get key d with
      | Some x => Ok x
      | None => Raise KeyError
      end
  | _ => Raise TypeError
  end.

(** [v[0]] *)
Definition first (v : json) : result json :=
  match v with
  | JArr (x :: _) => Ok x
  | JStr (c :: _) => Ok (JStr [c])
  | JObj (_ :: _) => Raise KeyError
  | _ => Raise TypeError
  end.

(** The values [for s in v] runs through. *)
Definition iter (v : json) : result (list json) :=
  match v with
  | JArr l => Ok l
  | JObj d => Ok (List.map (fun kv => JStr (fst kv)) d)
  | JStr s => Ok (List.map (fun c => JStr [c]) s)
  | _ => Raise TypeError
  end.

End Json.

(** ** What one HTTP exchange can end in *)

Inductive http_outcome : Type :=
| TransportFailure                (* no response: the client raises *)
| Response (body : option json).  (* a response; [None]: its body is not JSON *)

(** [resp.json()] *)
Definition resp_json (body : option json) : result json :=
  match body with
  | Some j => Ok j
  | None => Raise JSONDecodeError
  end.

(** ** The record the fetcher builds *)

Record ProblemRecord : Type := mkProblem {
  title : json;
  link : pystr;
  difficulty : json;
  date : json
}.

(** ** The module-level state *)

Record store : Type := mkStore {
  user_last_request : PyDict.t float;
  user_points : gmap pystr Z;
  user_current_problem : gmap pystr ProblemRecord;
  stdout : list pystr;   (* lines printed so far *)
  requests : nat         (* calls of the fetcher so far *)
}.

Definition initial : store := mkStore PyDict.empty ∅ ∅ [] 0.

Definition with_last_request (f : PyDict.t float -> PyDict.t float) (s : store) : store :=
  mkStore (f (user_last_request s)) (user_points s) (user_current_problem s)
          (stdout s) (requests s).

Definition with_points (f : gmap pystr Z -> gmap pystr Z) (s : store) : store :=
  mkStore (user_last_request s) (f (user_points s)) (user_current_problem s)
          (stdout s) (requests s).

Definition with_current_problem
    (f : gmap pystr ProblemRecord -> gmap pystr ProblemRecord) (s : store) : store :=
  mkStore (user_last_request s) (user_points s) (f (user_current_problem s))
          (stdout s) (requests s).

Definition with_stdout (f : list pystr -> list pystr) (s : store) : store :=
  mkStore (user_last_request s) (user_points s) (user_current_problem s)
          (f (stdout s)) (requests s).

Definition with_requests (f : nat -> nat) (s : store) : store :=
  mkStore (user_last_request s) (user_points s) (user_current_problem s)
          (stdout s) (f (requests s)).

(** ** Coroutines: a store passed along, ending in a value or an exception *)

Definition M (A : Type) : Type := store -> result A * store.

Definition ret {A} (a : A) : M A := fun s => (Ok a, s).

Definition bind {A B} (m : M A) (k : A -> M B) : M B :=
  fun s =>
    match m s with
    | (Ok a, s') => k a s'
    | (Raise e, s') => (Raise e, s')
    end.

Definition gets {A} (f : store -> A) : M A := fun s => (Ok (f s), s).

Definition modify (f : store -> store) : M unit := fun s => (Ok tt, f s).

Definition lift {A} (r : result A) : M A := fun s => (r, s).

Notation "'do' x <- m ; k" := (bind m (fun x => k))
  (at level 10, x name, m at level 100, k at level 200).

(** [d[k]] on a finite map: [KeyError] when the key is missing. *)
Definition subscript {V} (d : gmap pystr V) (k : pystr) : M V :=
  match d !! k with
  | Some v => ret v
  | None => lift (Raise KeyError)
  end.

(** [k in d] *)
Definition has_key {V} (d : gmap pystr V) (k : pystr) : bool :=
  match d !! k with
  | Some _ => true
  | None => false
  end.

(** ** The entries the stream helpers build *)

Module Twitch.
Record stream : Type := mkStream {
  user_name : json;
  title : json;
  url : pystr
}.
End Twitch.

Module YouTube.
Record stream : Type := mkStream {
  channelTitle : json;
  title : json;
  url : pystr
}.
End YouTube.

(** [[f(x) for x in xs]] where [f] may raise: the first exception ends it. *)
Fixpoint traverse {A B} (f : A -> result B) (xs : list A) : result (list B) :=
  match xs with
  | [] => Ok []
  | x :: r =>
      let? y := f x in
      let? ys := traverse f r in
      Ok (y :: ys)
  end.

(** [await client.get(...)] / [await client.post(...)] *)
Definition awaited (o : http_outcome) : result (option json) :=
  match o with
  | TransportFailure => Raise TransportError
  | Response body => Ok body
  end.

Definition nl : pystr := [10%N].

(** ** Sample data to run the model on *)

Module Sample.

Import PyStr.

(** A stand-in for the interpreter's rendering of floats, lists and
    dicts; none of the samples below has one rendered. *)
Definition repr (v : json) : pystr := lit "<object>".

(** Lower-casing of the ASCII letters. *)
Definition ascii_lower (s : pystr) : pystr :=
  List.map (fun c => if ((65 <=? c) && (c <=? 90))%N then (c + 32)%N else c) s.

Definition u1 : pystr := lit "U1".
Definition u2 : pystr := lit "U2".

Definition two_sum_payload : json :=
  JObj [(lit "data", JObj [(lit "activeDailyCodingChallengeQuestion", JObj
    [(lit "date", JStr (lit "2024-01-01"));
     (lit "link", JStr (lit "/problems/two-sum/"));
     (lit "question", JObj
        [(lit "title", JStr (lit "Two Sum"));
         (lit "titleSlug", JStr (lit "two-sum"));
         (lit "difficulty", JStr (lit "Easy"))])])])].

Definition two_sum : ProblemRecord :=
  {| title := JStr (lit "Two Sum");
     link := lit "https://leetcode.com/problems/two-sum/";
     difficulty := JStr (lit "Easy");
     date := JStr (lit "2024-01-01") |}.

(** A payload of the usual shape with no question in it. *)
Definition no_question_payload : json :=
  JObj [(lit "data", JObj [(lit "activeDailyCodingChallengeQuestion", JObj
    [(lit "date", JStr (lit "2024-01-01"))])])].

Definition leetcode_up (k : nat) : http_outcome := Response (Some two_sum_payload).
Definition leetcode_empty (k : nat) : http_outcome := Response (Some no_question_payload).

(** [U1] was issued Two Sum at time 0. *)
Definition issued : store :=
  mkStore [(u1, 0%float)] ∅ {[u1 := two_sum]} [] 1.

(** No request to LeetCode gets through. *)
Definition leetcode_down (k : nat) : http_outcome := TransportFailure.

(** [U2] holds a problem and 45 points. *)
Definition u2_at_45 : store :=
  mkStore [(u2, 0%float)] {[u2 := 45%Z]} {[u2 := two_sum]} [] 1.

(** [U2] was issued a problem at time 0, [U1] at time 3600. *)
Definition two_users : store :=
  mkStore [(u2, 0%float); (u1, 3600%float)] ∅
          (<[u2 := two_sum]> {[u1 := two_sum]}) [] 0.

(** Twitch resolves the game and lists six streams, one more than the
    five asked for. *)
Definition a_stream (login : string) : json :=
  JObj [(lit "user_name", JStr (lit login));
        (lit "title", JStr (lit "Ranked"));
        (lit "user_login", JStr (lit login))].

Definition helix_games_found (game : pystr) : http_outcome :=
  Response (Some (JObj [(lit "data", JArr [JObj [(lit "id", JStr (lit "30921"))]])])).

Definition helix_games_unknown (game : pystr) : http_outcome :=
  Response (Some (JObj [(lit "data", JArr [])])).

Definition six_streams : list json :=
  [a_stream "a"; a_stream "b"; a_stream "c";
   a_stream "d"; a_stream "e"; a_stream "f"].

(** Lists all six, whatever [first] says. *)
Definition helix_streams_six (game_id : json) (first : Z) : http_outcome :=
  Response (Some (JObj [(lit "data", JArr six_streams)])).

(** Lists the first [first] of the six. *)
Definition helix_streams_capped (game_id : json) (first : Z) : http_outcome :=
  Response (Some (JObj [(lit "data", JArr (firstn (Z.to_nat first) six_streams))])).

Definition a_video (channel video : string) : json :=
  JObj [(lit "id", JObj [(lit "videoId", JStr (lit video))]);
        (lit "snippet", JObj [(lit "channelTitle", JStr (lit channel));
                              (lit "title", JStr (lit "Live now"))])].

(** One live video, whatever the URL. *)
Definition youtube_one_live (url : pystr) : http_outcome :=
  Response (Some (JObj [(lit "items", JArr [a_video "chan" "abc123"])])).

Definition youtube_none (url : pystr) : http_outcome :=
  Response (Some (JObj [(lit "items", JArr [])])).

Definition api_key : pystr := lit "KEY".


Definition injected_url : pystr :=
  lit "https://www.googleapis.com/youtube/v3/search?part=snippet&q=apex&maxResults=50#&type=video&eventType=live&maxResults=5&key=KEY".

Definition seven_videos : list json :=
  [a_video "c1" "v1"; a_video "c2" "v2"; a_video "c3" "v3"; a_video "c4" "v4";
   a_video "c5" "v5"; a_video "c6" "v6"; a_video "c7" "v7"].

(** A YouTube on which seven live videos match and which lists as many of
    them as it is asked for: all seven for [injected_url], which asks for
    50, and five for the other URLs of the tool, which ask for 5. *)
Definition youtube_as_asked (url : pystr) : http_outcome :=
  Response (Some (JObj [(lit "items",
    JArr (if bool_decide (url = injected_url) then seven_videos
          else firstn 5 seven_videos))])).

Definition rocket_league : pystr := lit "Rocket League".

(** The challenge and the question of [two_sum_payload]. *)
Definition two_sum_question : list (pystr * json) :=
  [(lit "title", JStr (lit "Two Sum"));
   (lit "titleSlug", JStr (lit "two-sum"));
   (lit "difficulty", JStr (lit "Easy"))].

Definition two_sum_challenge : list (pystr * json) :=
  [(lit "date", JStr (lit "2024-01-01"));
   (lit "link", JStr (lit "/problems/two-sum/"));
   (lit "question", JObj two_sum_question)].

(** A question that has lost its slug. *)
Definition no_slug_payload : json :=
  JObj [(lit "data", JObj [(lit "activeDailyCodingChallengeQuestion", JObj
    [(lit "question", JObj
        [(lit "title", JStr (lit "Two Sum"));
         (lit "difficulty", JStr (lit "Easy"))])])])].

(** The first request to LeetCode fails, the later ones are answered. *)
Definition leetcode_late (k : nat) : http_outcome :=
  match k with
  | O => TransportFailure
  | S _ => Response (Some two_sum_payload)
  end.

Definition helix_games_down (game : pystr) : http_outcome := TransportFailure.

(** The second of three listed streams has no title. *)
Definition helix_streams_one_bad (game_id : json) (first : Z) : http_outcome :=
  Response (Some (JObj [(lit "data",
    JArr [a_stream "a";
          JObj [(lit "user_name", JStr (lit "b")); (lit "user_login", JStr (lit "b"))];
          a_stream "c"])])).

(** [U2] at time 0 and [U1] at time 3600, as in [two_users], after one
    request has been made. *)
Definition two_users_later : store :=
  mkStore [(u2, 0%float); (u1, 3600%float)] {[u1 := 20%Z]}
          (<[u2 := two_sum]> {[u1 := two_sum]}) [] 1.



End Sample.

Section Server.

Import PyStr.

#[local] Set Default Proof Using "Type".

(** The Python runtime. [str(v)] of a float, a list or a dict is the
    interpreter's formatting, and [str.lower] its Unicode case mapping. *)
Variable repr_compound : json -> pystr.
Variable lower : pystr -> pystr.

(** The network. *)
Variable leetcode : nat -> http_outcome.
    (* the k-th POST to https://leetcode.com/graphql *)
Variable helix_games : pystr -> http_outcome.
    (* GET https://api.twitch.tv/helix/games?name=<game> *)
Variable helix_streams : json -> Z -> http_outcome.
    (* GET https://api.twitch.tv/helix/streams?game_id=<id>&first=<n> *)
Variable youtube_get : pystr -> http_outcome.
    (* GET <url>, for the URL that [get_youtube_live_streams] puts together *)

(** The configuration read from the environment. *)
Variable YOUTUBE_API_KEY : pystr.

(** [str(v)], which an f-string applies to each [{v}]. *)
Definition py_str (v : json) : pystr :=
  match v with
  | JStr s => s
  | JNull => lit "None"
  | JBool true => lit "True"
  | JBool false => lit "False"
  | JInt z => of_int z
  | JFloat _ | JArr _ | JObj _ => repr_compound v
  end.

(** *** LeetCode daily problem fetcher *)

(** The body of [get_leetcode_daily_problem] once the POST has ended in
    [o]; [None] is the empty dict [{}]. *)
Definition daily_problem_of (o : http_outcome) : result (option ProblemRecord) :=
  let? body := awaited o in
  let? j := resp_json body in
  let? d := Json.get j (lit "data") (JObj []) in
  let? data := Json.get d (lit "activeDailyCodingChallengeQuestion") (JObj []) in
  if Json.truthy data then
    let? question := Json.get data (lit "question") JNull in
    if Json.truthy question then
      let? q := Json.getitem data (lit "question") in
      let? q_title := Json.getitem q (lit "title") in
      let? q_slug := Json.getitem q (lit "titleSlug") in
      let? q_difficulty := Json.getitem q (lit "difficulty") in
      let? data_date := Json.get data (lit "date") JNull in
      Ok (Some {| title := q_title;
                  link := lit "https://leetcode.com/problems/" ++ py_str q_slug ++ lit "/";
                  difficulty := q_difficulty;
                  date := data_date |})
    else Ok None
  else Ok None.

Definition get_leetcode_daily_problem : M (option ProblemRecord) :=
  do k <- gets requests;
  do _ <- modify (with_requests S);
  lift (daily_problem_of (leetcode k)).

(** *** DSA tools *)

Definition dsa_daily_problem (user_id : pystr) (now : float) : M pystr :=
  do last_time <- gets (fun s => default 0%float (PyDict.get user_id (user_last_request s)));
  do cached <- gets (fun s => has_key (user_current_problem s) user_id);
  if PrimFloat.ltb (PrimFloat.sub now last_time) 86400 && cached then
    do problems <- gets user_current_problem;
    do p <- subscript problems user_id;
    ret (lit "Your DSA problem: " ++ py_str (title p) ++ lit " ("
           ++ py_str (difficulty p) ++ lit ")" ++ nl ++ link p)
  else
    do fetched <- get_leetcode_daily_problem;
    match fetched with
    | None => ret (lit "Couldn't fetch today's problem.")
    | Some prob =>
        do _ <- modify (with_current_problem (insert user_id prob));
        do _ <- modify (with_last_request (PyDict.set user_id now));
        ret (lit "Here" ++ [0x2019%N] ++ lit "s your DSA problem: "
               ++ py_str (title prob) ++ lit " ("
               ++ py_str (difficulty prob) ++ lit ")" ++ nl ++ link prob)
    end.

Definition check_dsa_solution (user_id solution : pystr) : M pystr :=
  do cached <- gets (fun s => has_key (user_current_problem s) user_id);
  if negb cached then ret (lit "You have no active daily problem.")
  else if negb (nonempty (strip solution)) then
    ret (lit "Please provide a valid solution.")
  else
    do _ <- modify (with_points (fun pts =>
              <[user_id := (default 0 (pts !! user_id) + 10)%Z]> pts));
    do pts <- gets user_points;
    do balance <- subscript pts user_id;
    ret (lit "Solution saved! " ++ [0x1F389%N] ++ lit " You now have "
           ++ of_int balance ++ lit " points.").

Definition show_points (user_id : pystr) : M pystr :=
  do pts <- gets user_points;
  ret (lit "You have " ++ of_int (default 0%Z (pts !! user_id)) ++ lit " points.").

Definition claim_rewards (user_id : pystr) : M pystr :=
  do pts <- gets user_points;
  if (default 0 (pts !! user_id) <? 50)%Z then
    ret (lit "Need 50 points to claim. You have "
           ++ of_int (default 0%Z (pts !! user_id)) ++ lit ".")
  else
    do balance <- subscript pts user_id;
    do _ <- modify (with_points (<[user_id := (balance - 50)%Z]>));
    ret ([0x1F381%N] ++ lit " Reward claimed!").

(** *** Auto-push scheduler *)

(** What the loop body does for one item of the snapshot. *)
Definition push_one (now : float) (item : pystr * float) : M unit :=
  let (user_id, last_time) := item in
  if PrimFloat.leb 86400 (PrimFloat.sub now last_time) then
    do fetched <- get_leetcode_daily_problem;
    match fetched with
    | Some prob =>
        do _ <- modify (with_current_problem (insert user_id prob));
        do _ <- modify (with_last_request (PyDict.set user_id now));
        modify (with_stdout (fun out => out ++
          [[0x1F4E4%N] ++ lit " Auto-sent to " ++ user_id ++ lit ": "
             ++ py_str (title prob) ++ lit " - " ++ link prob]))
    | None => ret tt
    end
  else ret tt.

Fixpoint push_all (now : float) (snapshot : list (pystr * float)) : M unit :=
  match snapshot with
  | [] => ret tt
  | item :: rest =>
      do _ <- push_one now item;
      push_all now rest
  end.

(** One turn of the [while True] loop of [auto_push_daily_problems], up
    to its [asyncio.sleep(3600)]. *)
Definition auto_push_daily_problems (now : float) : M unit :=
  do snapshot <- gets (fun s => PyDict.items (user_last_request s));
  push_all now snapshot.

(** *** The operations as requests, and runs of them *)

Inductive request : Type :=
| GetDailyProblem (user_id : pystr) (now : float)
| SubmitSolution (user_id solution : pystr)
| ShowPoints (user_id : pystr)
| ClaimReward (user_id : pystr)
| Sweep (now : float).

(** The store a request leaves, whether it replied or raised. *)
Definition step (s : store) (r : request) : store :=
  match r with
  | GetDailyProblem u now => snd (dsa_daily_problem u now s)
  | SubmitSolution u sol => snd (check_dsa_solution u sol s)
  | ShowPoints u => snd (show_points u s)
  | ClaimReward u => snd (claim_rewards u s)
  | Sweep now => snd (auto_push_daily_problems now s)
  end.

Definition run (rs : list request) : store := fold_left step rs initial.

(** [n] submissions in a row by one user: the outcomes in order, and the
    store they leave. *)
Fixpoint submit_repeatedly (n : nat) (user_id solution : pystr) (s : store)
    : list (result pystr) * store :=
  match n with
  | O => ([], s)
  | S n' =>
      let (r, s') := check_dsa_solution user_id solution s in
      let (rs, s'') := submit_repeatedly n' user_id solution s' in
      (r :: rs, s'')
  end.

(** What the three dictionaries hold for one user. *)
Definition user_view (user_id : pystr) (s : store)
    : option float * option ProblemRecord * option Z :=
  (PyDict.get user_id (user_last_request s),
   user_current_problem s !! user_id,
   user_points s !! user_id).


(** *** Twitch and YouTube helpers *)

Definition twitch_entry (s : json) : result Twitch.stream :=
  let? s_user_name := Json.getitem s (lit "user_name") in
  let? s_title := Json.getitem s (lit "title") in
  let? s_user_login := Json.getitem s (lit "user_login") in
  Ok {| Twitch.user_name := s_user_name;
        Twitch.title := s_title;
        Twitch.url := lit "https://twitch.tv/" ++ py_str s_user_login |}.

Definition get_twitch_live_streams (game : pystr) : result (list Twitch.stream) :=
  let? game_search := awaited (helix_games game) in
  let? j := resp_json game_search in
  let? data := Json.get j (lit "data") (JArr []) in
  if negb (Json.truthy data) then Ok []
  else
    let? data0 := Json.first data in
    let? game_id := Json.getitem data0 (lit "id") in
    let? streams_resp := awaited (helix_streams game_id 5) in
    let? j' := resp_json streams_resp in
    let? listed := Json.get j' (lit "data") (JArr []) in
    let? ss := Json.iter listed in
    traverse twitch_entry ss.

Definition youtube_entry (item : json) : result YouTube.stream :=
  let? snippet := Json.getitem item (lit "snippet") in
  let? item_id := Json.getitem item (lit "id") in
  let? video_id := Json.getitem item_id (lit "videoId") in
  let? channel := Json.getitem snippet (lit "channelTitle") in
  let? snippet_title := Json.getitem snippet (lit "title") in
  Ok {| YouTube.channelTitle := channel;
        YouTube.title := snippet_title;
        YouTube.url := lit "https://www.youtube.com/watch?v=" ++ py_str video_id |}.

(** The URL of the search: the game name and the key are pasted into it
    as they are. *)
Definition youtube_url (game : pystr) : pystr :=
  lit "https://www.googleapis.com/youtube/v3/search?"
    ++ lit "part=snippet&q=" ++ game
    ++ lit "&type=video&eventType=live&maxResults=5&key=" ++ YOUTUBE_API_KEY.

Definition get_youtube_live_streams (game : pystr) : result (list YouTube.stream) :=
  let? resp := awaited (youtube_get (youtube_url game)) in
  let? j := resp_json resp in
  let? listed := Json.get j (lit "items") (JArr []) in
  let? items := Json.iter listed in
  traverse youtube_entry items.

(** *** Stream finder tool *)

Definition twitch_line (s : Twitch.stream) : pystr :=
  lit "[Twitch] " ++ py_str (Twitch.user_name s) ++ lit ": "
    ++ py_str (Twitch.title s) ++ lit " (" ++ Twitch.url s ++ lit ")".

Definition youtube_line (s : YouTube.stream) : pystr :=
  lit "[YouTube] " ++ py_str (YouTube.channelTitle s) ++ lit ": "
    ++ py_str (YouTube.title s) ++ lit " (" ++ YouTube.url s ++ lit ")".

(** [not platform or platform.lower() == which] *)
Definition asks_for (platform : option pystr) (which : pystr) : bool :=
  match platform with
  | None => true
  | Some p => negb (nonempty p) || bool_decide (lower p = which)
  end.

(** The Twitch part and the YouTube part of [results]. *)
Definition twitch_results (game_name : pystr) (platform : option pystr) : result (list pystr) :=
  if asks_for platform (lit "twitch") then
    let? twitch_streams := get_twitch_live_streams game_name in
    Ok (List.map twitch_line twitch_streams)
  else Ok [].

Definition youtube_results (game_name : pystr) (platform : option pystr) : result (list pystr) :=
  if asks_for platform (lit "youtube") then
    let? youtube_streams := get_youtube_live_streams game_name in
    Ok (List.map youtube_line youtube_streams)
  else Ok [].

(** The list [results] as it stands at the [return]. *)
Definition stream_results (game_name : pystr) (platform : option pystr) : result (list pystr) :=
  let? from_twitch := twitch_results game_name platform in
  let? from_youtube := youtube_results game_name platform in
  Ok (from_twitch ++ from_youtube).

Definition stream_finder (game_name : pystr) (platform : option pystr) : result pystr :=
  let? results := stream_results game_name platform in
  Ok (if nonempty results then join nl results
      else lit "No live streams found right now.").

(** The reply on a cache hit and the reply after a fetch. *)
Definition cached_reply (p : ProblemRecord) : pystr :=
  lit "Your DSA problem: " ++ py_str (title p) ++ lit " ("
    ++ py_str (difficulty p) ++ lit ")" ++ nl ++ link p.

Definition fresh_reply (p : ProblemRecord) : pystr :=
  lit "Here" ++ [0x2019%N] ++ lit "s your DSA problem: "
    ++ py_str (title p) ++ lit " ("
    ++ py_str (difficulty p) ++ lit ")" ++ nl ++ link p.

(** The replies of the ledger tools. *)
Definition saved_reply (balance : Z) : pystr :=
  lit "Solution saved! " ++ [0x1F389%N] ++ lit " You now have "
    ++ of_int balance ++ lit " points.".

Definition deficit_reply (balance : Z) : pystr :=
  lit "Need 50 points to claim. You have " ++ of_int balance ++ lit ".".

Definition claimed_reply : pystr := [0x1F381%N] ++ lit " Reward claimed!".

(** The balance [user_points.get(user_id, 0)]. *)
Definition balance_of (s : store) (user_id : pystr) : Z :=
  default 0%Z (user_points s !! user_id).

(** Every stored balance is non-negative. *)
Definition ledger_ok (s : store) : Prop :=
  forall u z, user_points s !! u = Some z -> (0 <= z)%Z.

(** The items a response lists under [key], as the helpers' loops see
    them; no items when there is no response, no JSON or no such list. *)
Definition listed (key : pystr) (o : http_outcome) : list json :=
  match o with
  | Response (Some j) =>
      match Json.get j key (JArr []) with
      | Ok v => match Json.iter v with Ok items => items | Raise _ => [] end
      | Raise _ => []
      end
  | _ => []
  end.


(** [line] begins with [tag]. *)
Definition tagged (tag line : pystr) : Prop := exists rest, line = tag ++ rest.

(** The payload is of the expected shape but brings no question: the
    "data" object is absent, or its "activeDailyCodingChallengeQuestion"
    is absent or null, or that object has no "question" or a null one. *)
Definition lacks_question (j : json) : Prop :=
  exists d, j = JObj d /\
    (PyDict.get (lit "data") d = None
     \/ exists dd, PyDict.get (lit "data") d = Some (JObj dd) /\
          (PyDict.get (lit "activeDailyCodingChallengeQuestion") dd = None
           \/ PyDict.get (lit "activeDailyCodingChallengeQuestion") dd = Some JNull
           \/ exists q, PyDict.get (lit "activeDailyCodingChallengeQuestion") dd = Some (JObj q) /\
                (PyDict.get (lit "question") q = None
                 \/ PyDict.get (lit "question") q = Some JNull))).

(** The upstream outcomes that count as a failure of the fetch: no
    response, a body that is not JSON, a payload without the question. *)
Definition upstream_failure (o : http_outcome) : Prop :=
  o = TransportFailure
  \/ o = Response None
  \/ exists j, o = Response (Some j) /\ lacks_question j.


(** *** The tools of [src/dsaQuestion.py]

    The file has the fetcher, [show_points] and the three tools below as
    [src/final.py] has them, except for the decorative glyphs of three
    reply texts, which it holds in a doubly encoded form. The tools are
    given here once, by the glyphs of the file. *)

Record glyphs : Type := mkGlyphs {
  apostrophe : pystr;   (* in "Here's your DSA problem" *)
  party : pystr;        (* after "Solution saved!" *)
  gift : pystr          (* before "Reward claimed!" *)
}.

Definition final_glyphs : glyphs :=
  mkGlyphs [0x2019%N] [0x1F389%N] [0x1F381%N].

Definition dsa_question_glyphs : glyphs :=
  mkGlyphs [0xE2%N; 0x20AC%N; 0x2122%N]
           [0xF0%N; 0x178%N; 0x17D%N; 0x2030%N]
           [0xF0%N; 0x178%N; 0x17D%N].

Definition dsa_daily_problem_in (g : glyphs) (user_id : pystr) (now : float) : M pystr :=
  do last_time <- gets (fun s => default 0%float (PyDict.get user_id (user_last_request s)));
  do cached <- gets (fun s => has_key (user_current_problem s) user_id);
  if PrimFloat.ltb (PrimFloat.sub now last_time) 86400 && cached then
    do problems <- gets user_current_problem;
    do p <- subscript problems user_id;
    ret (lit "Your DSA problem: " ++ py_str (title p) ++ lit " ("
           ++ py_str (difficulty p) ++ lit ")" ++ nl ++ link p)
  else
    do fetched <- get_leetcode_daily_problem;
    match fetched with
    | None => ret (lit "Couldn't fetch today's problem.")
    | Some prob =>
        do _ <- modify (with_current_problem (insert user_id prob));
        do _ <- modify (with_last_request (PyDict.set user_id now));
        ret (lit "Here" ++ apostrophe g ++ lit "s your DSA problem: "
               ++ py_str (title prob) ++ lit " ("
               ++ py_str (difficulty prob) ++ lit ")" ++ nl ++ link prob)
    end.

Definition check_dsa_solution_in (g : glyphs) (user_id solution : pystr) : M pystr :=
  do cached <- gets (fun s => has_key (user_current_problem s) user_id);
  if negb cached then ret (lit "You have no active daily problem.")
  else if negb (nonempty (strip solution)) then
    ret (lit "Please provide a valid solution.")
  else
    do _ <- modify (with_points (fun pts =>
              <[user_id := (default 0 (pts !! user_id) + 10)%Z]> pts));
    do pts <- gets user_points;
    do balance <- subscript pts user_id;
    ret (lit "Solution saved! " ++ party g ++ lit " You now have "
           ++ of_int balance ++ lit " points.").

Definition claim_rewards_in (g : glyphs) (user_id : pystr) : M pystr :=
  do pts <- gets user_points;
  if (default 0 (pts !! user_id) <? 50)%Z then
    ret (lit "Need 50 points to claim. You have "
           ++ of_int (default 0%Z (pts !! user_id)) ++ lit ".")
  else
    do balance <- subscript pts user_id;
    do _ <- modify (with_points (<[user_id := (balance - 50)%Z]>));
    ret (gift g ++ lit " Reward claimed!").

Definition fresh_reply_in (g : glyphs) (p : ProblemRecord) : pystr :=
  lit "Here" ++ apostrophe g ++ lit "s your DSA problem: "
    ++ py_str (title p) ++ lit " ("
    ++ py_str (difficulty p) ++ lit ")" ++ nl ++ link p.

Definition saved_reply_in (g : glyphs) (balance : Z) : pystr :=
  lit "Solution saved! " ++ party g ++ lit " You now have "
    ++ of_int balance ++ lit " points.".

Definition claimed_reply_in (g : glyphs) : pystr := gift g ++ lit " Reward claimed!".

(** *** Message handler of [src/dsaQuestion.py] *)

(** The texts the handler takes for commands, once stripped and
    lower-cased. *)
Definition is_command (t : pystr) : bool :=
  bool_decide (t = lit "dsa")
  || bool_decide (t = lit "my points") || bool_decide (t = lit "dsa points")
  || bool_decide (t = lit "claim").

(** What [@mcp.tool(...)] leaves bound to the name of a tool is the
    library's business: before fastmcp 2.7 the function itself, from 2.7
    on a [FunctionTool] object, which cannot be called. *)
Variable tool_callable : bool.

(** [await tool(...)] for a name the decorator has bound. *)
Definition call_tool {A} (body : M A) : M A :=
  if tool_callable then body else lift (Raise TypeError).

(** [handle_user_message(user_id, text)] of [src/dsaQuestion.py]; [now] is
    what [time.time()] returns should the daily problem be asked for. *)
Definition handle_user_message (user_id text : pystr) (now : float) : M pystr :=
  let t := lower (strip text) in
  if bool_decide (t = lit "dsa") then
    call_tool (dsa_daily_problem_in dsa_question_glyphs user_id now)
  else if bool_decide (t = lit "my points") || bool_decide (t = lit "dsa points") then
    call_tool (show_points user_id)
  else if bool_decide (t = lit "claim") then
    call_tool (claim_rewards_in dsa_question_glyphs user_id)
  else
    do cached <- gets (fun s => has_key (user_current_problem s) user_id);
    if cached then call_tool (check_dsa_solution_in dsa_question_glyphs user_id text)
    else ret (lit "Type 'dsa' for today's problem.").

(** *** Notions the further properties are stated with *)

(** The request takes the fetch path: the cooldown is over or nothing is
    stored for the user. *)
Definition misses (user_id : pystr) (now : float) (s : store) : bool :=
  negb (PrimFloat.ltb
          (PrimFloat.sub now (default 0%float (PyDict.get user_id (user_last_request s))))
          86400
        && has_key (user_current_problem s) user_id).

(** The entry of the snapshot is due at [now]. *)
Definition due (now : float) (item : pystr * float) : bool :=
  PrimFloat.leb 86400 (PrimFloat.sub now (snd item)).

(** A user has a last-request time exactly when a problem is stored for
    it, and a balance only when a problem is stored for it. *)
Definition linked (s : store) : Prop :=
  forall u,
    (is_Some (PyDict.get u (user_last_request s))
       <-> is_Some (user_current_problem s !! u))
    /\ (is_Some (user_points s !! u) -> is_Some (user_current_problem s !! u)).

(** The record the fetcher builds from the parts of a question. *)
Definition record_of (q_title q_slug q_difficulty data_date : json) : ProblemRecord :=
  {| title := q_title;
     link := lit "https://leetcode.com/problems/" ++ py_str q_slug ++ lit "/";
     difficulty := q_difficulty;
     date := data_date |}.

(** The payload [{"data": {"activeDailyCodingChallengeQuestion": challenge}}],
    possibly among other fields. *)
Definition carries (challenge : list (pystr * json)) (j : json) : Prop :=
  exists d dd, j = JObj d
    /\ PyDict.get (lit "data") d = Some (JObj dd)
    /\ PyDict.get (lit "activeDailyCodingChallengeQuestion") dd = Some (JObj challenge).

Definition is_object (j : json) : bool :=
  match j with JObj _ => true | _ => false end.

(** ** Facts about the data *)

(** Drops the runtime and the network from a goal that is about data
    alone. *)
Ltac data_only :=
  try clear tool_callable; try clear YOUTUBE_API_KEY; try clear youtube_get;
  try clear helix_streams; try clear helix_games;
  try clear leetcode; try clear lower; try clear repr_compound.

(** *** Ordered dictionaries *)

Lemma PyDict_get_set_eq {V} (k : pystr) (v : V) (d : PyDict.t V) :
  PyDict.get k (PyDict.set k v d) = Some v.
Proof.
  data_only.
  induction d as [|[k' v'] d IH]; simpl.
  - destruct (decide (k = k)); congruence.
  - destruct (decide (k = k')) as [E|N]; simpl.
    + rewrite E. destruct (decide (k' = k')); congruence.
    + destruct (decide (k = k')); [contradiction | exact IH].
Qed.

Lemma PyDict_get_set_ne {V} (k k0 : pystr) (v : V) (d : PyDict.t V) :
  k0 <> k -> PyDict.get k0 (PyDict.set k v d) = PyDict.get k0 d.
Proof.
  data_only.
  intros Hne. induction d as [|[k' v'] d IH]; simpl.
  - destruct (decide (k0 = k)); [contradiction | reflexivity].
  - destruct (decide (k = k')) as [E|N]; simpl.
    + destruct (decide (k0 = k')); [congruence | reflexivity].
    + rewrite IH. reflexivity.
Qed.

Lemma PyDict_keys_set_present {V} (k : pystr) (v : V) (d : PyDict.t V) :
  In k (List.map fst d) -> List.map fst (PyDict.set k v d) = List.map fst d.
Proof.
  data_only.
  induction d as [|[k' v'] d IH]; simpl; [tauto|].
  intros Hin. destruct (decide (k = k')) as [E|N]; simpl; [reflexivity|].
  f_equal. apply IH. destruct Hin; congruence.
Qed.

Lemma PyDict_keys_set_absent {V} (k : pystr) (v : V) (d : PyDict.t V) :
  ~ In k (List.map fst d) -> List.map fst (PyDict.set k v d) = List.map fst d ++ [k].
Proof.
  data_only.
  induction d as [|[k' v'] d IH]; simpl; [reflexivity|].
  intros Hnin. destruct (decide (k = k')) as [E|N]; simpl.
  - exfalso. apply Hnin. left. congruence.
  - f_equal. apply IH. tauto.
Qed.

(** Assignment keeps the keys of a dictionary distinct. *)
Lemma PyDict_wf_set {V} (k : pystr) (v : V) (d : PyDict.t V) :
  PyDict.wf d -> PyDict.wf (PyDict.set k v d).
Proof.
  data_only.
  unfold PyDict.wf. intros Hwf.
  destruct (in_dec (fun a b : pystr => decide (a = b)) k (List.map fst d)) as [Hin|Hnin].
  - rewrite PyDict_keys_set_present by assumption. exact Hwf.
  - rewrite PyDict_keys_set_absent by assumption.
    apply NoDup_app. split; [exact Hwf|]. split.
    + intros x Hx Hk. apply list_elem_of_In in Hx.
      apply list_elem_of_In in Hk. simpl in Hk. destruct Hk as [<-|[]].
      contradiction.
    + apply NoDup_singleton.
Qed.

Lemma PyDict_get_None_keys {V} (k : pystr) (d : PyDict.t V) :
  ~ In k (List.map fst d) -> PyDict.get k d = None.
Proof.
  data_only.
  induction d as [|[k' v'] d IH]; simpl; [reflexivity|].
  intros Hnin. destruct (decide (k = k')) as [E|N].
  - exfalso. apply Hnin. left. congruence.
  - apply IH. tauto.
Qed.

(** *** Stripping *)

Lemma lstrip_blank (s : pystr) : PyStr.blank (lstrip s) = PyStr.blank s.
Proof.
  data_only.
  induction s as [|c r IH]; simpl; [reflexivity|].
  destruct (isspace c) eqn:E; simpl; [exact IH | rewrite E; reflexivity].
Qed.

Lemma lstrip_nonempty (s : pystr) : nonempty (lstrip s) = negb (PyStr.blank s).
Proof.
  data_only.
  induction s as [|c r IH]; simpl; [reflexivity|].
  destruct (isspace c) eqn:E; simpl; [exact IH | reflexivity].
Qed.

Lemma blank_rev (s : pystr) : PyStr.blank (rev s) = PyStr.blank s.
Proof.
  data_only.
  unfold PyStr.blank. induction s as [|c r IH]; simpl; [reflexivity|].
  rewrite forallb_app, IH. simpl. rewrite andb_true_r. apply andb_comm.
Qed.

Lemma nonempty_rev {A} (l : list A) : nonempty (rev l) = nonempty l.
Proof.
  data_only.
  destruct l as [|a l]; simpl; [reflexivity|].
  destruct (rev l); reflexivity.
Qed.

(** [s.strip()] is the empty string exactly when [s] is blank. *)
Lemma strip_nonempty (s : pystr) : nonempty (strip s) = negb (PyStr.blank s).
Proof.
  data_only.
  unfold strip, rstrip.
  rewrite nonempty_rev, lstrip_nonempty, blank_rev, lstrip_blank.
  reflexivity.
Qed.

(** *** Floating-point comparison *)

Lemma SFcompare_antisym (a b : spec_float) :
  SFcompare b a = option_map CompOpp (SFcompare a b).
Proof.
  data_only.
  destruct a as [sa|sa| |sa ma ea], b as [sb|sb| |sb mb eb]; simpl;
    try destruct sa; try destruct sb; try reflexivity.
  - rewrite (Z.compare_antisym ea eb).
    destruct (ea ?= eb)%Z; simpl; try reflexivity.
    f_equal. f_equal. rewrite (Pos.compare_cont_antisym ma mb Eq). reflexivity.
  - rewrite (Z.compare_antisym ea eb).
    destruct (ea ?= eb)%Z; simpl; try reflexivity.
    f_equal. rewrite (Pos.compare_cont_antisym ma mb Eq). reflexivity.
Qed.

(** [a <= b] excludes [b < a], also for the special values. *)
Lemma leb_not_ltb (a b : float) :
  PrimFloat.leb a b = true -> PrimFloat.ltb b a = false.
Proof.
  data_only.
  rewrite leb_spec, ltb_spec. unfold SFleb, SFltb.
  rewrite (SFcompare_antisym (Prim2SF a) (Prim2SF b)).
  destruct (SFcompare (Prim2SF a) (Prim2SF b)) as [[]|]; simpl; congruence.
Qed.

(** *** Containment in a concatenation *)

Lemma contains_here (x post : pystr) : contains x (x ++ post).
Proof. data_only. exists [], post. reflexivity. Qed.

Lemma contains_later (x pre rest : pystr) :
  contains x rest -> contains x (pre ++ rest).
Proof.
  data_only.
  intros (a & b & ->). exists (pre ++ a), b. rewrite <- app_assoc. reflexivity.
Qed.

Lemma contains_end (x pre : pystr) : contains x (pre ++ x).
Proof. data_only. exists pre, []. rewrite app_nil_r. reflexivity. Qed.

Lemma has_key_Some {V} (d : gmap pystr V) (k : pystr) (v : V) :
  d !! k = Some v -> has_key d k = true.
Proof. data_only. unfold has_key. intros ->. reflexivity. Qed.

Lemma has_key_None {V} (d : gmap pystr V) (k : pystr) :
  d !! k = None -> has_key d k = false.
Proof. data_only. unfold has_key. intros ->. reflexivity. Qed.

(** ** The tracker *)

Ltac run_m :=
  unfold bind, gets, modify, ret, lift, subscript; simpl.

(** C1. A user with a stored problem who asks again less than 86400
    seconds after the last issue gets the stored record as the reply;
    no fetch is made and the store, counters included, is the one
    before the call. *)
Theorem dsa_daily_problem_cache_hit (u : pystr) (now : float) (s : store) (p : ProblemRecord) :
  user_current_problem s !! u = Some p ->
  PrimFloat.ltb (PrimFloat.sub now (default 0%float (PyDict.get u (user_last_request s)))) 86400 = true ->
  dsa_daily_problem u now s = (Ok (cached_reply p), s)
  /\ requests (snd (dsa_daily_problem u now s)) = requests s
  /\ user_last_request (snd (dsa_daily_problem u now s)) = user_last_request s
  /\ user_current_problem (snd (dsa_daily_problem u now s)) = user_current_problem s
  /\ user_points (snd (dsa_daily_problem u now s)) = user_points s.
Proof.
  intros Hp Hlt.
  assert (E : dsa_daily_problem u now s = (Ok (cached_reply p), s)).
  { unfold dsa_daily_problem. run_m.
    rewrite Hlt, (has_key_Some _ _ _ Hp). simpl. rewrite Hp. reflexivity. }
  rewrite E. simpl. auto.
Qed.

(** C2. When the cooldown has elapsed, or the user has no stored
    problem, and the fetch returns a record, the call makes exactly one
    fetch, stores that record as the user's current problem, sets the
    user's last-request time to [now], and replies with a text that
    contains the record's title, difficulty and link. *)
Theorem dsa_daily_problem_fetch_success (u : pystr) (now : float) (s : store) (prob : ProblemRecord) :
  PrimFloat.leb 86400 (PrimFloat.sub now (default 0%float (PyDict.get u (user_last_request s)))) = true
    \/ user_current_problem s !! u = None ->
  daily_problem_of (leetcode (requests s)) = Ok (Some prob) ->
  let out := dsa_daily_problem u now s in
  fst out = Ok (fresh_reply prob)
  /\ requests (snd out) = S (requests s)
  /\ user_current_problem (snd out) = <[u := prob]> (user_current_problem s)
  /\ user_current_problem (snd out) !! u = Some prob
  /\ user_last_request (snd out) = PyDict.set u now (user_last_request s)
  /\ PyDict.get u (user_last_request (snd out)) = Some now
  /\ user_points (snd out) = user_points s
  /\ contains (py_str (title prob)) (fresh_reply prob)
  /\ contains (py_str (difficulty prob)) (fresh_reply prob)
  /\ contains (link prob) (fresh_reply prob).
Proof.
  intros Hmiss Hfetch out.
  assert (Hcond : PrimFloat.ltb (PrimFloat.sub now (default 0%float (PyDict.get u (user_last_request s)))) 86400
                  && has_key (user_current_problem s) u = false).
  { destruct Hmiss as [Hge|Hnone].
    - rewrite (leb_not_ltb _ _ Hge). reflexivity.
    - rewrite (has_key_None _ _ Hnone). apply andb_false_r. }
  assert (E : out = (Ok (fresh_reply prob),
                     with_last_request (PyDict.set u now)
                       (with_current_problem (insert u prob) (with_requests S s)))).
  { subst out. unfold dsa_daily_problem, get_leetcode_daily_problem. run_m.
    rewrite Hcond, Hfetch. reflexivity. }
  rewrite E. simpl. repeat split.
  - apply lookup_insert_eq.
  - apply PyDict_get_set_eq.
  - unfold fresh_reply. do 3 apply contains_later. apply contains_here.
  - unfold fresh_reply. do 5 apply contains_later. apply contains_here.
  - unfold fresh_reply. do 7 apply contains_later. apply contains_end.
Qed.

(** C3. When the call takes the fetch path and the fetch comes back
    empty, the reply is the plain failure text and none of the three
    dictionaries changes. *)
Theorem dsa_daily_problem_fetch_empty (u : pystr) (now : float) (s : store) :
  PrimFloat.ltb (PrimFloat.sub now (default 0%float (PyDict.get u (user_last_request s)))) 86400
    && has_key (user_current_problem s) u = false ->
  daily_problem_of (leetcode (requests s)) = Ok None ->
  let out := dsa_daily_problem u now s in
  fst out = Ok (lit "Couldn't fetch today's problem.")
  /\ user_last_request (snd out) = user_last_request s
  /\ user_current_problem (snd out) = user_current_problem s
  /\ user_points (snd out) = user_points s
  /\ stdout (snd out) = stdout s.
Proof.
  intros Hcond Hfetch out. subst out.
  unfold dsa_daily_problem, get_leetcode_daily_problem. run_m.
  rewrite Hcond, Hfetch. simpl. auto.
Qed.

(** A fetch that raises leaves the three dictionaries alone as well. *)
Lemma dsa_daily_problem_fetch_raises (u : pystr) (now : float) (s : store) (e : pyexn) :
  PrimFloat.ltb (PrimFloat.sub now (default 0%float (PyDict.get u (user_last_request s)))) 86400
    && has_key (user_current_problem s) u = false ->
  daily_problem_of (leetcode (requests s)) = Raise e ->
  dsa_daily_problem u now s = (Raise e, with_requests S s).
Proof.
  intros Hcond Hfetch.
  unfold dsa_daily_problem, get_leetcode_daily_problem. run_m.
  rewrite Hcond, Hfetch. reflexivity.
Qed.

(** C5. A submission adds exactly 10 to the user's balance and is
    answered with the confirmation showing the new balance if and only
    if the user has a current problem and the solution text is not
    blank; otherwise the answer is one of the two guidance texts and the
    store is left as it was. *)
Theorem check_dsa_solution_spec (u sol : pystr) (s : store) :
  let accepted := has_key (user_current_problem s) u && negb (PyStr.blank sol) in
  let out := check_dsa_solution u sol s in
  (accepted = true <->
     fst out = Ok (saved_reply (balance_of s u + 10))
     /\ balance_of (snd out) u = (balance_of s u + 10)%Z)
  /\ (if accepted then
        snd out = with_points (<[u := (balance_of s u + 10)%Z]>) s
        /\ contains (of_int (balance_of s u + 10)) (saved_reply (balance_of s u + 10))
      else
        (fst out = Ok (lit "You have no active daily problem.")
         \/ fst out = Ok (lit "Please provide a valid solution."))
        /\ snd out = s).
Proof.
  intros accepted out. subst accepted out.
  unfold check_dsa_solution, balance_of. run_m.
  rewrite strip_nonempty, negb_involutive.
  destruct (has_key (user_current_problem s) u) eqn:Hk; simpl.
  - destruct (PyStr.blank sol) eqn:Hb; simpl.
    + split; [|auto]. split; [discriminate|]. intros [_ H]. lia.
    + rewrite lookup_insert_eq. simpl. rewrite lookup_insert_eq. simpl.
      split; [split; auto|]. split; [reflexivity|].
      unfold saved_reply. do 3 apply contains_later. apply contains_here.
  - split; [|auto]. split; [discriminate|]. intros [_ H]. lia.
Qed.

(** C6. With a balance under 50 a claim is answered with the deficit
    text, which cites 50 and the balance, and changes nothing; with a
    balance of 50 or more it takes exactly 50 off the balance and is
    answered with the success text. *)
Theorem claim_rewards_spec (u : pystr) (s : store) :
  let out := claim_rewards u s in
  if (balance_of s u <? 50)%Z then
    out = (Ok (deficit_reply (balance_of s u)), s)
    /\ contains (lit "50") (deficit_reply (balance_of s u))
    /\ contains (of_int (balance_of s u)) (deficit_reply (balance_of s u))
  else
    fst out = Ok claimed_reply
    /\ balance_of (snd out) u = (balance_of s u - 50)%Z
    /\ snd out = with_points (<[u := (balance_of s u - 50)%Z]>) s.
Proof.
  intros out. subst out. unfold claim_rewards, balance_of. run_m.
  destruct (default 0%Z (user_points s !! u) <? 50)%Z eqn:Hlt.
  - split; [reflexivity|]. split.
    + exists (lit "Need "), (lit " points to claim. You have "
               ++ of_int (default 0%Z (user_points s !! u)) ++ lit ".").
      reflexivity.
    + unfold deficit_reply. apply contains_later. apply contains_here.
  - destruct (user_points s !! u) as [z|] eqn:Hz; simpl in *.
    + rewrite lookup_insert_eq. simpl. auto.
    + discriminate.
Qed.

(** *** What each operation does to the ledger *)

Lemma get_leetcode_daily_problem_run (s : store) :
  get_leetcode_daily_problem s
  = (daily_problem_of (leetcode (requests s)), with_requests S s).
Proof. reflexivity. Qed.

Lemma dsa_daily_problem_points (u : pystr) (now : float) (s : store) :
  user_points (snd (dsa_daily_problem u now s)) = user_points s.
Proof.
  unfold dsa_daily_problem. run_m.
  destruct (PrimFloat.ltb _ _ && has_key _ _).
  - destruct (user_current_problem s !! u); reflexivity.
  - destruct (daily_problem_of _) as [[prob|]|e]; reflexivity.
Qed.

Lemma push_one_points (now : float) (item : pystr * float) (s : store) :
  user_points (snd (push_one now item s)) = user_points s.
Proof.
  destruct item as [v t]. unfold push_one.
  destruct (PrimFloat.leb _ _); [|reflexivity].
  run_m. destruct (daily_problem_of _) as [[prob|]|e]; reflexivity.
Qed.

Lemma push_all_points (now : float) (snapshot : list (pystr * float)) (s : store) :
  user_points (snd (push_all now snapshot s)) = user_points s.
Proof.
  revert s. induction snapshot as [|item rest IH]; intros s; simpl; [reflexivity|].
  unfold bind. pose proof (push_one_points now item s) as H1.
  destruct (push_one now item s) as [[[]|e] s1]; simpl in *.
  - rewrite IH. exact H1.
  - exact H1.
Qed.

(** An accepted submission, as one equation. *)
Lemma check_dsa_solution_accepted (u sol : pystr) (s : store) :
  has_key (user_current_problem s) u = true ->
  PyStr.blank sol = false ->
  check_dsa_solution u sol s
  = (Ok (saved_reply (balance_of s u + 10)),
     with_points (<[u := (balance_of s u + 10)%Z]>) s).
Proof.
  intros Hk Hb. unfold check_dsa_solution, balance_of. run_m.
  rewrite strip_nonempty, Hk, Hb. simpl.
  rewrite lookup_insert_eq. reflexivity.
Qed.

Lemma check_dsa_solution_ledger (u sol : pystr) (s : store) :
  ledger_ok s -> ledger_ok (snd (check_dsa_solution u sol s)).
Proof.
  intros Hok. unfold check_dsa_solution. run_m.
  destruct (has_key (user_current_problem s) u); simpl; [|exact Hok].
  destruct (nonempty (strip sol)); simpl; [|exact Hok].
  rewrite lookup_insert_eq. simpl.
  intros v z. simpl. destruct (decide (u = v)) as [<-|Hne].
  - rewrite lookup_insert_eq. intros [= <-].
    destruct (user_points s !! u) as [b|] eqn:Hb; simpl; [|lia].
    specialize (Hok u b Hb). lia.
  - rewrite lookup_insert_ne by assumption. apply Hok.
Qed.

Lemma claim_rewards_ledger (u : pystr) (s : store) :
  ledger_ok s -> ledger_ok (snd (claim_rewards u s)).
Proof.
  intros Hok. unfold claim_rewards. run_m.
  destruct (default 0%Z (user_points s !! u) <? 50)%Z eqn:Hlt; [exact Hok|].
  destruct (user_points s !! u) as [b|] eqn:Hb; simpl in *; [|exact Hok].
  intros v z. simpl. destruct (decide (u = v)) as [<-|Hne].
  - rewrite lookup_insert_eq. intros [= <-]. lia.
  - rewrite lookup_insert_ne by assumption. apply Hok.
Qed.

Lemma step_ledger (s : store) (r : request) :
  ledger_ok s -> ledger_ok (step s r).
Proof.
  intros Hok. destruct r as [u now|u sol|u|u|now]; simpl.
  - unfold ledger_ok. rewrite dsa_daily_problem_points. exact Hok.
  - apply check_dsa_solution_ledger, Hok.
  - exact Hok.
  - apply claim_rewards_ledger, Hok.
  - unfold ledger_ok, auto_push_daily_problems. run_m.
    rewrite push_all_points. exact Hok.
Qed.

Lemma steps_ledger (rs : list request) (s : store) :
  ledger_ok s -> ledger_ok (fold_left step rs s).
Proof.
  revert s. induction rs as [|r rs IH]; intros s Hok; simpl; [exact Hok|].
  apply IH, step_ledger, Hok.
Qed.

(** C4. Starting from the empty store, after any sequence of
    daily-problem requests, submissions, point queries, claims and
    sweeps, every user's balance is a non-negative integer. *)
Theorem points_never_negative (rs : list request) (u : pystr) :
  (0 <= balance_of (run rs) u)%Z
  /\ (forall z, user_points (run rs) !! u = Some z -> (0 <= z)%Z).
Proof.
  assert (Hok : ledger_ok (run rs)).
  { apply steps_ledger. intros v z. simpl. rewrite lookup_empty. discriminate. }
  split.
  - unfold balance_of.
    destruct (user_points (run rs) !! u) as [z|] eqn:Hz; simpl; [|lia].
    exact (Hok u z Hz).
  - intros z Hz. exact (Hok u z Hz).
Qed.

(** C10. With a current problem and a non-blank text, [n] submissions in
    a row are all accepted, the k-th confirming a balance 10*k above the
    starting one; the balance ends 10*n higher and the current problem
    is still the same, so nothing bounds the resubmissions. *)
Theorem resubmission_unbounded (n : nat) (u sol : pystr) (s : store) (p : ProblemRecord) :
  user_current_problem s !! u = Some p ->
  PyStr.blank sol = false ->
  let out := submit_repeatedly n u sol s in
  fst out = List.map (fun k => Ok (saved_reply (balance_of s u + 10 * Z.of_nat (S k))))
                     (seq 0 n)
  /\ balance_of (snd out) u = (balance_of s u + 10 * Z.of_nat n)%Z
  /\ user_current_problem (snd out) = user_current_problem s
  /\ user_last_request (snd out) = user_last_request s.
Proof.
  intros Hp Hb. cbv zeta. revert s Hp.
  induction n as [|n IH]; intros s Hp.
  - simpl. repeat split. lia.
  - cbn [submit_repeatedly].
    rewrite (check_dsa_solution_accepted u sol s (has_key_Some _ _ _ Hp) Hb).
    set (s1 := with_points _ s).
    assert (Hp1 : user_current_problem s1 !! u = Some p) by exact Hp.
    assert (Hb1 : balance_of s1 u = (balance_of s u + 10)%Z).
    { unfold balance_of, s1. simpl. rewrite lookup_insert_eq. reflexivity. }
    specialize (IH s1 Hp1).
    destruct (submit_repeatedly n u sol s1) as [rs s2]. cbn [fst snd] in *.
    destruct IH as (Hr & Hbal & Hcur & Hlast). repeat split.
    + change (seq 0 (S n)) with (0 :: seq 1 n). cbn [List.map].
      assert (H1 : (balance_of s u + 10 * Z.of_nat 1 = balance_of s u + 10)%Z) by lia.
      rewrite H1. f_equal.
      rewrite Hr, <- seq_shift, List.map_map.
      apply List.map_ext. intros k. rewrite Hb1.
      assert (E : (balance_of s u + 10 + 10 * Z.of_nat (S k)
                   = balance_of s u + 10 * Z.of_nat (S (S k)))%Z) by lia.
      rewrite E. reflexivity.
    + rewrite Hbal, Hb1. lia.
    + exact Hcur.
    + exact Hlast.
Qed.

(** *** The sweep, seen from one user *)

Lemma push_one_skip (now : float) (v : pystr) (t : float) (s : store) :
  PrimFloat.leb 86400 (PrimFloat.sub now t) = false ->
  push_one now (v, t) s = (Ok tt, s).
Proof. intros H. unfold push_one. rewrite H. reflexivity. Qed.

Lemma push_one_due (now : float) (v : pystr) (t : float) (s : store) :
  PrimFloat.leb 86400 (PrimFloat.sub now t) = true ->
  push_one now (v, t) s =
  match daily_problem_of (leetcode (requests s)) with
  | Ok (Some prob) =>
      (Ok tt,
       with_stdout (fun out => out ++
           [[0x1F4E4%N] ++ lit " Auto-sent to " ++ v ++ lit ": "
              ++ py_str (title prob) ++ lit " - " ++ link prob])
         (with_last_request (PyDict.set v now)
            (with_current_problem (insert v prob) (with_requests S s))))
  | Ok None => (Ok tt, with_requests S s)
  | Raise e => (Raise e, with_requests S s)
  end.
Proof.
  intros H. unfold push_one. rewrite H.
  unfold get_leetcode_daily_problem. run_m.
  destruct (daily_problem_of _) as [[prob|]|e]; reflexivity.
Qed.

Lemma push_one_view_other (u : pystr) (now : float) (v : pystr) (t : float) (s : store) :
  u <> v -> user_view u (snd (push_one now (v, t) s)) = user_view u s.
Proof.
  intros Hne.
  destruct (PrimFloat.leb 86400 (PrimFloat.sub now t)) eqn:Hdue.
  - rewrite (push_one_due _ _ _ _ Hdue).
    destruct (daily_problem_of _) as [[prob|]|e]; try reflexivity.
    unfold user_view. simpl.
    rewrite PyDict_get_set_ne by assumption.
    rewrite lookup_insert_ne by congruence. reflexivity.
  - rewrite (push_one_skip _ _ _ _ Hdue). reflexivity.
Qed.

Lemma push_all_view_other (u : pystr) (now : float)
    (snapshot : list (pystr * float)) (s : store) :
  ~ In u (List.map fst snapshot) ->
  user_view u (snd (push_all now snapshot s)) = user_view u s.
Proof.
  revert s. induction snapshot as [|[v t] rest IH]; intros s Hnin;
    cbn [push_all]; [reflexivity|].
  simpl in Hnin.
  assert (Hne : u <> v) by (intros ->; apply Hnin; left; reflexivity).
  pose proof (push_one_view_other u now v t s Hne) as H1.
  unfold bind. destruct (push_one now (v, t) s) as [[[]|e] s1]; cbn [snd] in H1 |- *.
  - rewrite IH by (intros Hin; apply Hnin; right; exact Hin). exact H1.
  - exact H1.
Qed.




(** ** The fetcher *)

Lemma daily_problem_of_lacking (j : json) :
  lacks_question j -> daily_problem_of (Response (Some j)) = Ok None.
Proof.
  intros (d & -> & H). unfold daily_problem_of. simpl.
  destruct H as [H0|(dd & H0 & H)]; rewrite H0; simpl; [reflexivity|].
  destruct H as [H1|[H1|(q & H1 & H)]]; rewrite H1; simpl; try reflexivity.
  destruct q as [|kv q]; [reflexivity|]. cbn [Json.truthy nonempty].
  destruct H as [H2|H2]; rewrite H2; reflexivity.
Qed.

(** C8, as the code has it. Of the three kinds of upstream failure only
    the payload without a question is turned into the empty result; a
    failed request and a body that is not JSON are not caught, and the
    fetcher raises. *)
Theorem fetcher_on_upstream_failure (o : http_outcome) :
  upstream_failure o ->
  match o with
  | TransportFailure => daily_problem_of o = Raise TransportError
  | Response None => daily_problem_of o = Raise JSONDecodeError
  | Response (Some _) => daily_problem_of o = Ok None
  end.
Proof.
  intros [->|[->|(j & -> & Hj)]]; try reflexivity.
  apply daily_problem_of_lacking, Hj.
Qed.

(** ** The stream finder *)








(** *** The last-request dictionary keeps its keys distinct *)

Lemma dsa_daily_problem_wf (u : pystr) (now : float) (s : store) :
  PyDict.wf (user_last_request s) ->
  PyDict.wf (user_last_request (snd (dsa_daily_problem u now s))).
Proof.
  intros Hwf. unfold dsa_daily_problem, get_leetcode_daily_problem. run_m.
  destruct (PrimFloat.ltb _ _ && has_key _ _).
  - destruct (user_current_problem s !! u); exact Hwf.
  - destruct (daily_problem_of _) as [[prob|]|e]; simpl; try exact Hwf.
    apply PyDict_wf_set, Hwf.
Qed.

Lemma push_all_wf (now : float) (snapshot : list (pystr * float)) (s : store) :
  PyDict.wf (user_last_request s) ->
  PyDict.wf (user_last_request (snd (push_all now snapshot s))).
Proof.
  revert s. induction snapshot as [|[v t] rest IH]; intros s Hwf;
    cbn [push_all]; [exact Hwf|].
  unfold bind.
  assert (H1 : PyDict.wf (user_last_request (snd (push_one now (v, t) s)))).
  { destruct (PrimFloat.leb 86400 (PrimFloat.sub now t)) eqn:Hdue.
    - rewrite (push_one_due _ _ _ _ Hdue).
      destruct (daily_problem_of _) as [[prob|]|e]; simpl; try exact Hwf.
      apply PyDict_wf_set, Hwf.
    - rewrite (push_one_skip _ _ _ _ Hdue). exact Hwf. }
  destruct (push_one now (v, t) s) as [[[]|e] s1]; cbn [snd] in H1 |- *.
  - apply IH, H1.
  - exact H1.
Qed.

Lemma run_wf (rs : list request) : PyDict.wf (user_last_request (run rs)).
Proof.
  unfold run.
  assert (H : forall s, PyDict.wf (user_last_request s) ->
                        PyDict.wf (user_last_request (fold_left step rs s))).
  { induction rs as [|r rs IH]; intros s Hwf; simpl; [exact Hwf|].
    apply IH. destruct r as [u now|u sol|u|u|now]; simpl.
    - apply dsa_daily_problem_wf, Hwf.
    - unfold check_dsa_solution. run_m.
      destruct (has_key _ _); simpl; [|exact Hwf].
      destruct (nonempty _); simpl; [|exact Hwf].
      rewrite lookup_insert_eq. exact Hwf.
    - exact Hwf.
    - unfold claim_rewards. run_m.
      destruct (_ <? 50)%Z; [exact Hwf|].
      destruct (user_points s !! u); exact Hwf.
    - unfold auto_push_daily_problems. run_m. apply push_all_wf, Hwf. }
  apply H. apply NoDup_nil_2.
Qed.

(** ** Further properties of the tracker *)

(** The request tools as equations, for the glyphs of either file. *)

Lemma dsa_daily_problem_in_hit (g : glyphs) (u : pystr) (now : float) (s : store) :
  misses u now s = false ->
  exists p, user_current_problem s !! u = Some p
    /\ dsa_daily_problem_in g u now s = (Ok (cached_reply p), s).
Proof.
  unfold misses. intros Hm. apply negb_false_iff in Hm.
  apply andb_true_iff in Hm. destruct Hm as [Hlt Hk].
  unfold has_key in Hk.
  destruct (user_current_problem s !! u) as [p|] eqn:Hp; [|discriminate].
  exists p. split; [reflexivity|].
  unfold dsa_daily_problem_in. run_m.
  rewrite Hlt, (has_key_Some _ _ _ Hp). simpl. rewrite Hp. reflexivity.
Qed.

Lemma dsa_daily_problem_in_miss (g : glyphs) (u : pystr) (now : float) (s : store) :
  misses u now s = true ->
  dsa_daily_problem_in g u now s =
  match daily_problem_of (leetcode (requests s)) with
  | Ok (Some prob) =>
      (Ok (fresh_reply_in g prob),
       with_last_request (PyDict.set u now)
         (with_current_problem (insert u prob) (with_requests S s)))
  | Ok None => (Ok (lit "Couldn't fetch today's problem."), with_requests S s)
  | Raise e => (Raise e, with_requests S s)
  end.
Proof.
  unfold misses. intros Hm. apply negb_true_iff in Hm.
  unfold dsa_daily_problem_in, get_leetcode_daily_problem. run_m.
  rewrite Hm. destruct (daily_problem_of _) as [[prob|]|e]; reflexivity.
Qed.

Lemma check_dsa_solution_in_eq (g : glyphs) (u sol : pystr) (s : store) :
  check_dsa_solution_in g u sol s =
  if negb (has_key (user_current_problem s) u) then
    (Ok (lit "You have no active daily problem."), s)
  else if PyStr.blank sol then
    (Ok (lit "Please provide a valid solution."), s)
  else
    (Ok (saved_reply_in g (balance_of s u + 10)),
     with_points (<[u := (balance_of s u + 10)%Z]>) s).
Proof.
  unfold check_dsa_solution_in, balance_of. run_m.
  rewrite strip_nonempty, negb_involutive.
  destruct (has_key _ _); simpl; [|reflexivity].
  destruct (PyStr.blank sol); simpl; [reflexivity|].
  rewrite lookup_insert_eq. reflexivity.
Qed.

Lemma claim_rewards_in_eq (g : glyphs) (u : pystr) (s : store) :
  claim_rewards_in g u s =
  if (balance_of s u <? 50)%Z then (Ok (deficit_reply (balance_of s u)), s)
  else (Ok (claimed_reply_in g),
        with_points (<[u := (balance_of s u - 50)%Z]>) s).
Proof.
  unfold claim_rewards_in, balance_of. run_m.
  destruct (default 0%Z (user_points s !! u) <? 50)%Z eqn:Hlt; [reflexivity|].
  destruct (user_points s !! u) as [b|]; simpl in *; [reflexivity | discriminate].
Qed.

(** With the glyphs of [src/final.py] these are the tools the claims are
    about. *)
Lemma tools_of_final (u : pystr) (now : float) (sol : pystr) :
  dsa_daily_problem_in final_glyphs u now = dsa_daily_problem u now
  /\ check_dsa_solution_in final_glyphs u sol = check_dsa_solution u sol
  /\ claim_rewards_in final_glyphs u = claim_rewards u.
Proof. repeat split. Qed.

(** X1. A daily-problem request raises exactly when it takes the fetch
    path and the fetch raises; the exception is the fetcher's, and the
    three dictionaries are as they were (only the request is counted). *)
Theorem dsa_daily_problem_raises_iff (u : pystr) (now : float) (s : store) (e : pyexn) :
  (fst (dsa_daily_problem u now s) = Raise e
     <-> misses u now s = true /\ daily_problem_of (leetcode (requests s)) = Raise e)
  /\ (fst (dsa_daily_problem u now s) = Raise e ->
      snd (dsa_daily_problem u now s) = with_requests S s).
Proof.
  change (dsa_daily_problem u now) with (dsa_daily_problem_in final_glyphs u now).
  destruct (misses u now s) eqn:Hm.
  - rewrite (dsa_daily_problem_in_miss _ _ _ _ Hm).
    destruct (daily_problem_of _) as [[prob|]|e']; simpl.
    + split; [split|]; [discriminate | intros [_ H]; discriminate | discriminate].
    + split; [split|]; [discriminate | intros [_ H]; discriminate | discriminate].
    + split; [split|].
      * intros H. split; [reflexivity | congruence].
      * intros [_ H]. congruence.
      * reflexivity.
  - destruct (dsa_daily_problem_in_hit final_glyphs _ _ _ Hm) as (p & _ & ->). simpl.
    split; [split|]; [discriminate | intros [H _]; discriminate | discriminate].
Qed.

(** X2. Once a request has fetched and stored a record at time [t0], a
    request of the same user at a time [t1] with [t1 - t0 < 86400] is
    answered with that record and makes no fetch. *)
Theorem cooldown_after_issue (u : pystr) (t0 t1 : float) (s : store) (prob : ProblemRecord) :
  misses u t0 s = true ->
  daily_problem_of (leetcode (requests s)) = Ok (Some prob) ->
  PrimFloat.ltb (PrimFloat.sub t1 t0) 86400 = true ->
  let s1 := snd (dsa_daily_problem u t0 s) in
  dsa_daily_problem u t1 s1 = (Ok (cached_reply prob), s1)
  /\ requests s1 = S (requests s).
Proof.
  intros Hmiss Hfetch Hlt s1.
  assert (E : s1 = with_last_request (PyDict.set u t0)
                     (with_current_problem (insert u prob) (with_requests S s))).
  { subst s1. unfold misses in Hmiss. apply negb_true_iff in Hmiss.
    unfold dsa_daily_problem, get_leetcode_daily_problem. run_m.
    rewrite Hmiss, Hfetch. reflexivity. }
  rewrite E. split; [|reflexivity].
  unfold dsa_daily_problem. run_m.
  rewrite PyDict_get_set_eq. simpl. rewrite Hlt.
  unfold has_key. rewrite lookup_insert_eq. simpl. rewrite lookup_insert_eq.
  reflexivity.
Qed.

(** X3. The three request tools and [show_points], called for one user,
    leave every other user's last-request time, current problem and
    balance as they were. *)
Theorem tools_touch_one_user (u v : pystr) (now : float) (sol : pystr) (s : store) :
  v <> u ->
  user_view v (snd (dsa_daily_problem u now s)) = user_view v s
  /\ user_view v (snd (check_dsa_solution u sol s)) = user_view v s
  /\ user_view v (snd (show_points u s)) = user_view v s
  /\ user_view v (snd (claim_rewards u s)) = user_view v s.
Proof.
  intros Hne. assert (Hne' : u <> v) by congruence. repeat split.
  - unfold dsa_daily_problem, get_leetcode_daily_problem. run_m.
    destruct (PrimFloat.ltb _ _ && has_key _ _).
    + destruct (user_current_problem s !! u); reflexivity.
    + destruct (daily_problem_of _) as [[prob|]|e]; try reflexivity.
      unfold user_view. simpl.
      rewrite PyDict_get_set_ne by assumption.
      rewrite lookup_insert_ne by assumption. reflexivity.
  - unfold check_dsa_solution. run_m.
    destruct (has_key _ _); simpl; [|reflexivity].
    destruct (nonempty _); simpl; [|reflexivity].
    rewrite lookup_insert_eq. unfold user_view. simpl.
    rewrite lookup_insert_ne by assumption. reflexivity.
  - unfold claim_rewards. run_m.
    destruct (_ <? 50)%Z; [reflexivity|].
    destruct (user_points s !! u); [|reflexivity].
    unfold user_view. simpl.
    rewrite lookup_insert_ne by assumption. reflexivity.
Qed.

(** *** The dictionaries stay linked *)

Lemma PyDict_is_Some_set {V} (k k0 : pystr) (v : V) (d : PyDict.t V) :
  is_Some (PyDict.get k0 (PyDict.set k v d)) <-> k0 = k \/ is_Some (PyDict.get k0 d).
Proof.
  data_only. destruct (decide (k0 = k)) as [->|Hne].
  - rewrite PyDict_get_set_eq. split; [auto | intros _; eexists; reflexivity].
  - rewrite PyDict_get_set_ne by assumption. split; [auto | intros [H|H]; [contradiction | exact H]].
Qed.

Lemma is_Some_insert {V} (k k0 : pystr) (v : V) (m : gmap pystr V) :
  is_Some (<[k := v]> m !! k0) <-> k0 = k \/ is_Some (m !! k0).
Proof.
  data_only. destruct (decide (k0 = k)) as [->|Hne].
  - rewrite lookup_insert_eq. split; [auto | intros _; eexists; reflexivity].
  - rewrite lookup_insert_ne by congruence.
    split; [auto | intros [H|H]; [contradiction | exact H]].
Qed.

(** Storing a record and a time for one user keeps the link. *)
Lemma linked_issue (u : pystr) (now : float) (prob : ProblemRecord) (s : store) :
  linked s ->
  linked (with_last_request (PyDict.set u now)
            (with_current_problem (insert u prob) s)).
Proof.
  intros Hl v. destruct (Hl v) as [Hlast Hpts]. simpl. split.
  - rewrite PyDict_is_Some_set, is_Some_insert, Hlast. reflexivity.
  - intros H. apply is_Some_insert. right. apply Hpts, H.
Qed.

Lemma linked_requests (f : nat -> nat) (s : store) : linked s -> linked (with_requests f s).
Proof. intros Hl. exact Hl. Qed.

Lemma linked_stdout (f : list pystr -> list pystr) (s : store) :
  linked s -> linked (with_stdout f s).
Proof. intros Hl. exact Hl. Qed.

Lemma dsa_daily_problem_linked (u : pystr) (now : float) (s : store) :
  linked s -> linked (snd (dsa_daily_problem u now s)).
Proof.
  intros Hl. unfold dsa_daily_problem, get_leetcode_daily_problem. run_m.
  destruct (PrimFloat.ltb _ _ && has_key _ _).
  - destruct (user_current_problem s !! u); exact Hl.
  - destruct (daily_problem_of _) as [[prob|]|e]; simpl; try exact Hl.
    apply (linked_issue u now prob (with_requests S s)), Hl.
Qed.

Lemma push_all_linked (now : float) (snapshot : list (pystr * float)) (s : store) :
  linked s -> linked (snd (push_all now snapshot s)).
Proof.
  revert s. induction snapshot as [|[v t] rest IH]; intros s Hl;
    cbn [push_all]; [exact Hl|].
  unfold bind.
  assert (H1 : linked (snd (push_one now (v, t) s))).
  { destruct (PrimFloat.leb 86400 (PrimFloat.sub now t)) eqn:Hdue.
    - rewrite (push_one_due _ _ _ _ Hdue).
      destruct (daily_problem_of _) as [[prob|]|e]; simpl; try exact Hl.
      apply linked_stdout. apply (linked_issue v now prob (with_requests S s)), Hl.
    - rewrite (push_one_skip _ _ _ _ Hdue). exact Hl. }
  destruct (push_one now (v, t) s) as [[[]|e] s1]; cbn [snd] in H1 |- *.
  - apply IH, H1.
  - exact H1.
Qed.

Lemma check_dsa_solution_linked (u sol : pystr) (s : store) :
  linked s -> linked (snd (check_dsa_solution u sol s)).
Proof.
  intros Hl. unfold check_dsa_solution. run_m.
  destruct (has_key (user_current_problem s) u) eqn:Hk; simpl; [|exact Hl].
  destruct (nonempty _); simpl; [|exact Hl].
  rewrite lookup_insert_eq. simpl.
  intros v. destruct (Hl v) as [Hlast Hpts]. simpl. split; [exact Hlast|].
  intros H. apply is_Some_insert in H. destruct H as [->|H]; [|apply Hpts, H].
  unfold has_key in Hk. destruct (user_current_problem s !! u); [eexists; reflexivity | discriminate].
Qed.

Lemma claim_rewards_linked (u : pystr) (s : store) :
  linked s -> linked (snd (claim_rewards u s)).
Proof.
  intros Hl. unfold claim_rewards. run_m.
  destruct (_ <? 50)%Z; [exact Hl|].
  destruct (user_points s !! u) as [b|] eqn:Hb; simpl; [|exact Hl].
  intros v. destruct (Hl v) as [Hlast Hpts]. simpl. split; [exact Hlast|].
  intros H. apply is_Some_insert in H. destruct H as [->|H]; [|apply Hpts, H].
  apply (proj2 (Hl u)). rewrite Hb. eexists; reflexivity.
Qed.

(** X4. After any sequence of requests and sweeps from the empty store, a
    user has a last-request time exactly when a problem is stored for it,
    and has a balance only when a problem is stored for it. *)
Theorem run_linked (rs : list request) : linked (run rs).
Proof.
  unfold run.
  assert (H : forall s, linked s -> linked (fold_left step rs s)).
  { induction rs as [|r rs IH]; intros s Hl; simpl; [exact Hl|].
    apply IH. destruct r as [u now|u sol|u|u|now]; simpl.
    - apply dsa_daily_problem_linked, Hl.
    - apply check_dsa_solution_linked, Hl.
    - exact Hl.
    - apply claim_rewards_linked, Hl.
    - unfold auto_push_daily_problems. run_m. apply push_all_linked, Hl. }
  apply H. intros u. simpl. rewrite lookup_empty. split.
  - split; intros [x Hx]; discriminate.
  - intros [x Hx]. discriminate.
Qed.

(** *** More on the sweep *)

Lemma push_all_view_idle (u : pystr) (now : float)
    (snapshot : list (pystr * float)) (s : store) :
  NoDup (List.map fst snapshot) ->
  (forall t, PyDict.get u snapshot = Some t -> due now (u, t) = false) ->
  user_view u (snd (push_all now snapshot s)) = user_view u s.
Proof.
  revert s. induction snapshot as [|[v t] rest IH]; intros s Hnd Hidle;
    cbn [push_all]; [reflexivity|].
  simpl in Hnd. apply NoDup_cons in Hnd. destruct Hnd as [Hv Hnd].
  simpl in Hidle. unfold bind. revert Hidle.
  destruct (decide (u = v)) as [<-|Hne]; intros Hidle.
  - specialize (Hidle t eq_refl). unfold due in Hidle. simpl in Hidle.
    rewrite (push_one_skip _ _ _ _ Hidle).
    apply push_all_view_other. intros Hin. apply Hv, list_elem_of_In, Hin.
  - pose proof (push_one_view_other u now v t s Hne) as H1.
    destruct (push_one now (v, t) s) as [[[]|e] s1]; cbn [snd] in H1 |- *.
    + rewrite IH by assumption. exact H1.
    + exact H1.
Qed.

(** X5. A sweep leaves alone every user that is not on record or whose
    cooldown has not elapsed, whatever the fetches made for the others
    come to. *)
Theorem sweep_skips_not_due (u : pystr) (now : float) (s : store) :
  PyDict.wf (user_last_request s) ->
  (forall t, PyDict.get u (user_last_request s) = Some t -> due now (u, t) = false) ->
  user_view u (snd (auto_push_daily_problems now s)) = user_view u s.
Proof.
  intros Hwf Hidle. unfold auto_push_daily_problems. run_m.
  apply push_all_view_idle; assumption.
Qed.




(** ** Further properties of the fetcher *)

(** X7. From a payload whose challenge holds a non-empty question object
    the fetcher builds the record of the question's title and difficulty,
    of the link made of its titleSlug (the payload's own link is not
    used) and of the challenge's date ([None] when absent); when the
    question lacks one of the three keys the fetcher raises [KeyError]. *)
Theorem fetcher_on_question (j : json) (challenge q : list (pystr * json)) :
  carries challenge j ->
  PyDict.get (lit "question") challenge = Some (JObj q) ->
  q <> [] ->
  daily_problem_of (Response (Some j)) =
  match PyDict.get (lit "title") q,
        PyDict.get (lit "titleSlug") q,
        PyDict.get (lit "difficulty") q with
  | Some q_title, Some q_slug, Some q_difficulty =>
      Ok (Some (record_of q_title q_slug q_difficulty
                  (default JNull (PyDict.get (lit "date") challenge))))
  | _, _, _ => Raise KeyError
  end.
Proof.
  intros (d & dd & -> & Hdata & Hch) Hq Hne.
  unfold daily_problem_of. simpl. rewrite Hdata. simpl. rewrite Hch. simpl.
  destruct challenge as [|kv challenge]; [discriminate|].
  cbn [Json.truthy nonempty]. rewrite Hq. simpl.
  destruct q as [|kv' q]; [contradiction|]. cbn [Json.truthy nonempty rbind].
  destruct (PyDict.get (lit "title") (kv' :: q)) as [t|]; [|reflexivity].
  destruct (PyDict.get (lit "titleSlug") (kv' :: q)) as [sl|]; [|reflexivity].
  destruct (PyDict.get (lit "difficulty") (kv' :: q)) as [df|]; reflexivity.
Qed.

(** X8. Payloads of another shape make the fetcher raise: a JSON value
    that is no object, or a "data" or a non-empty challenge that is no
    object, gives [AttributeError]; a question that is true but no object
    gives [TypeError]. *)
Theorem fetcher_on_other_shapes :
  (forall j, is_object j = false ->
     daily_problem_of (Response (Some j)) = Raise AttributeError)
  /\ (forall d x,
        PyDict.get (lit "data") d = Some x -> is_object x = false ->
        daily_problem_of (Response (Some (JObj d))) = Raise AttributeError)
  /\ (forall d dd x,
        PyDict.get (lit "data") d = Some (JObj dd) ->
        PyDict.get (lit "activeDailyCodingChallengeQuestion") dd = Some x ->
        Json.truthy x = true -> is_object x = false ->
        daily_problem_of (Response (Some (JObj d))) = Raise AttributeError)
  /\ (forall j challenge x,
        carries challenge j ->
        PyDict.get (lit "question") challenge = Some x ->
        Json.truthy x = true -> is_object x = false ->
        daily_problem_of (Response (Some j)) = Raise TypeError).
Proof.
  split; [|split; [|split]].
  - intros j Hj. destruct j; try discriminate; reflexivity.
  - intros d x Hd Hx. unfold daily_problem_of. simpl. rewrite Hd. simpl.
    destruct x; try discriminate; reflexivity.
  - intros d dd x Hd Hch Ht Hx. unfold daily_problem_of. simpl.
    rewrite Hd. simpl. rewrite Hch. simpl. rewrite Ht.
    destruct x; try discriminate; reflexivity.
  - intros j challenge x (d & dd & -> & Hd & Hch) Hq Ht Hx.
    unfold daily_problem_of. simpl. rewrite Hd. simpl. rewrite Hch. simpl.
    destruct challenge as [|kv challenge]; [discriminate|].
    cbn [Json.truthy nonempty]. rewrite Hq. simpl. rewrite Ht.
    destruct x; try discriminate; reflexivity.
Qed.

(** ** Further properties of the stream finder *)



(** X10. The tool gives no partial result: when the Twitch lookup it was
    asked for raises, the tool raises the same exception without turning
    to YouTube; when the Twitch part is there and the YouTube lookup
    raises, the tool raises and the Twitch lines are lost. *)
Theorem stream_finder_no_partial_results (game : pystr) (platform : option pystr) (e : pyexn) :
  (asks_for platform (lit "twitch") = true ->
   get_twitch_live_streams game = Raise e ->
   stream_finder game platform = Raise e)
  /\ (forall tw,
        twitch_results game platform = Ok tw ->
        asks_for platform (lit "youtube") = true ->
        get_youtube_live_streams game = Raise e ->
        stream_finder game platform = Raise e).
Proof.
  split.
  - intros Hask Ht. unfold stream_finder, stream_results, twitch_results.
    rewrite Hask, Ht. reflexivity.
  - intros tw Htw Hask Hy. unfold stream_finder, stream_results, youtube_results.
    rewrite Htw, Hask, Hy. reflexivity.
Qed.

(** X11. A platform argument that is not empty and reads neither "twitch"
    nor "youtube" in lower case gets the fixed message, and no lookup is
    made: the answer is the same whatever the network would say. *)
Theorem stream_finder_other_platform (game p : pystr) :
  nonempty p = true ->
  lower p <> lit "twitch" ->
  lower p <> lit "youtube" ->
  stream_finder game (Some p) = Ok (lit "No live streams found right now.").
Proof.
  intros Hp Ht Hy.
  unfold stream_finder, stream_results, twitch_results, youtube_results, asks_for.
  rewrite Hp. simpl.
  rewrite (bool_decide_eq_false_2 _ Ht), (bool_decide_eq_false_2 _ Hy). reflexivity.
Qed.

(** *** The handler of [src/dsaQuestion.py] *)

(** X13. The request tools of [src/dsaQuestion.py] and of [src/final.py]
    leave the same store and raise alike; where both reply, the replies
    are the same text up to the glyph of the file. *)
Theorem tools_differ_in_glyphs_only (g : glyphs) (u : pystr) (now : float)
    (sol : pystr) (s : store) :
  snd (dsa_daily_problem_in g u now s) = snd (dsa_daily_problem u now s)
  /\ snd (check_dsa_solution_in g u sol s) = snd (check_dsa_solution u sol s)
  /\ snd (claim_rewards_in g u s) = snd (claim_rewards u s)
  /\ (fst (dsa_daily_problem_in g u now s) = fst (dsa_daily_problem u now s)
      \/ exists prob,
           fst (dsa_daily_problem_in g u now s) = Ok (fresh_reply_in g prob)
           /\ fst (dsa_daily_problem u now s) = Ok (fresh_reply prob))
  /\ (fst (check_dsa_solution_in g u sol s) = fst (check_dsa_solution u sol s)
      \/ exists balance,
           fst (check_dsa_solution_in g u sol s) = Ok (saved_reply_in g balance)
           /\ fst (check_dsa_solution u sol s) = Ok (saved_reply balance))
  /\ (fst (claim_rewards_in g u s) = fst (claim_rewards u s)
      \/ fst (claim_rewards_in g u s) = Ok (claimed_reply_in g)
         /\ fst (claim_rewards u s) = Ok claimed_reply).
Proof.
  change (dsa_daily_problem u now) with (dsa_daily_problem_in final_glyphs u now).
  change (check_dsa_solution u sol) with (check_dsa_solution_in final_glyphs u sol).
  change (claim_rewards u) with (claim_rewards_in final_glyphs u).
  rewrite !check_dsa_solution_in_eq, !claim_rewards_in_eq.
  assert (Hd : snd (dsa_daily_problem_in g u now s)
               = snd (dsa_daily_problem_in final_glyphs u now s)
               /\ (fst (dsa_daily_problem_in g u now s)
                   = fst (dsa_daily_problem_in final_glyphs u now s)
                   \/ exists prob,
                        fst (dsa_daily_problem_in g u now s) = Ok (fresh_reply_in g prob)
                        /\ fst (dsa_daily_problem_in final_glyphs u now s)
                           = Ok (fresh_reply prob))).
  { destruct (misses u now s) eqn:Hm.
    - rewrite !(dsa_daily_problem_in_miss _ _ _ _ Hm).
      destruct (daily_problem_of _) as [[prob|]|e]; simpl; split; auto.
      right. exists prob. split; reflexivity.
    - destruct (dsa_daily_problem_in_hit g _ _ _ Hm) as (p & Hp & ->).
      destruct (dsa_daily_problem_in_hit final_glyphs _ _ _ Hm) as (p' & Hp' & ->).
      simpl. split; [reflexivity|]. left. congruence. }
  destruct Hd as [Hd1 Hd2].
  split; [exact Hd1|]. split; [|split; [|split; [exact Hd2|split]]].
  - destruct (negb _); [reflexivity|]. destruct (PyStr.blank sol); reflexivity.
  - destruct (_ <? 50)%Z; reflexivity.
  - destruct (negb _); [left; reflexivity|].
    destruct (PyStr.blank sol); [left; reflexivity|].
    right. eexists. split; reflexivity.
  - destruct (_ <? 50)%Z; [left; reflexivity|]. right. split; reflexivity.
Qed.

Lemma dsa_daily_problem_in_points (g : glyphs) (u : pystr) (now : float) (s : store) :
  user_points (snd (dsa_daily_problem_in g u now s)) = user_points s.
Proof.
  destruct (misses u now s) eqn:Hm.
  - rewrite (dsa_daily_problem_in_miss _ _ _ _ Hm).
    destruct (daily_problem_of _) as [[prob|]|e]; reflexivity.
  - destruct (dsa_daily_problem_in_hit g _ _ _ Hm) as (p & _ & ->). reflexivity.
Qed.

(** X14. Through the handler a user's balance grows by 10 exactly when the
    name the decorator has bound can be called, the text is no command,
    the user has a current problem and the text is not blank: a command
    is never taken for a solution, a user without a problem earns
    nothing, and under a fastmcp that binds an object nobody earns
    anything through the handler. *)
Theorem handle_user_message_awards (u text : pystr) (now : float) (s : store) :
  balance_of (snd (handle_user_message u text now s)) u = (balance_of s u + 10)%Z
  <-> tool_callable = true
      /\ is_command (lower (strip text)) = false
      /\ has_key (user_current_problem s) u = true
      /\ PyStr.blank text = false.
Proof.
  unfold handle_user_message, is_command, call_tool.
  destruct tool_callable.
  - destruct (bool_decide (lower (strip text) = lit "dsa")); simpl.
    { unfold balance_of. rewrite dsa_daily_problem_in_points.
      split; [lia | intros (_ & H & _); discriminate]. }
    destruct (bool_decide (lower (strip text) = lit "my points")
              || bool_decide (lower (strip text) = lit "dsa points")); simpl.
    { split; [lia | intros (_ & H & _); discriminate]. }
    destruct (bool_decide (lower (strip text) = lit "claim")); simpl.
    { rewrite claim_rewards_in_eq. destruct (_ <? 50)%Z; simpl.
      - split; [lia | intros (_ & H & _); discriminate].
      - unfold balance_of at 1. simpl. rewrite lookup_insert_eq. simpl.
        split; [lia | intros (_ & H & _); discriminate]. }
    unfold bind, gets. simpl.
    destruct (has_key (user_current_problem s) u) eqn:Hk; simpl.
    + rewrite check_dsa_solution_in_eq, Hk. simpl.
      destruct (PyStr.blank text); simpl.
      * split; [lia | intros (_ & _ & _ & H); discriminate].
      * unfold balance_of at 1. simpl. rewrite lookup_insert_eq. simpl.
        split; auto.
    + split; [lia | intros (_ & _ & H & _); discriminate].
  - split; [|intros (H & _); discriminate].
    unfold bind, gets, lift, ret.
    repeat match goal with
           | |- context [if ?b then _ else _] => destruct b
           end; simpl; lia.
Qed.

(** X15. Where the decorator binds the function, the handler raises only
    on a "dsa" request that takes the fetch path and whose fetch raises,
    and every other message is answered. Where it binds an object that
    cannot be called, every command and every text of a user with a
    current problem raises [TypeError] and the store stays as it was;
    only a user without a problem is answered. *)
Theorem handle_user_message_raises (u text : pystr) (now : float) (s : store) :
  if tool_callable then
    forall e, fst (handle_user_message u text now s) = Raise e ->
      lower (strip text) = lit "dsa"
      /\ misses u now s = true
      /\ daily_problem_of (leetcode (requests s)) = Raise e
  else
    handle_user_message u text now s
    = if is_command (lower (strip text)) || has_key (user_current_problem s) u
      then (Raise TypeError, s)
      else (Ok (lit "Type 'dsa' for today's problem."), s).
Proof.
  unfold handle_user_message, is_command, call_tool.
  destruct tool_callable.
  - intros e.
    destruct (bool_decide (lower (strip text) = lit "dsa")) eqn:Hdsa; simpl.
    { apply bool_decide_eq_true_1 in Hdsa. intros Hr. split; [exact Hdsa|].
      destruct (misses u now s) eqn:Hm.
      - split; [reflexivity|]. rewrite (dsa_daily_problem_in_miss _ _ _ _ Hm) in Hr.
        destruct (daily_problem_of _) as [[prob|]|e']; simpl in Hr; congruence.
      - destruct (dsa_daily_problem_in_hit dsa_question_glyphs _ _ _ Hm) as (p & _ & Heq).
        rewrite Heq in Hr. discriminate. }
    destruct (bool_decide (lower (strip text) = lit "my points")
              || bool_decide (lower (strip text) = lit "dsa points")); simpl.
    { discriminate. }
    destruct (bool_decide (lower (strip text) = lit "claim")); simpl.
    { rewrite claim_rewards_in_eq. destruct (_ <? 50)%Z; discriminate. }
    unfold bind, gets. simpl.
    destruct (has_key (user_current_problem s) u) eqn:Hk; simpl; [|discriminate].
    rewrite check_dsa_solution_in_eq, Hk. simpl.
    destruct (PyStr.blank text); discriminate.
  - unfold bind, gets, lift, ret.
    destruct (bool_decide (lower (strip text) = lit "dsa")); simpl; [reflexivity|].
    destruct (bool_decide (lower (strip text) = lit "my points")
              || bool_decide (lower (strip text) = lit "dsa points")); simpl; [reflexivity|].
    destruct (bool_decide (lower (strip text) = lit "claim")); simpl; [reflexivity|].
    destruct (has_key (user_current_problem s) u); reflexivity.
Qed.

(** X16. [show_points] changes nothing and reports the ledger as the
    other tools leave it: 10 more after an accepted submission, 50 less
    after a granted claim, the same after a refused one. *)
Theorem show_points_after (u sol : pystr) (s : store) :
  let s1 := snd (check_dsa_solution u sol s) in
  let s2 := snd (claim_rewards u s) in
  show_points u s1
  = (Ok (lit "You have "
           ++ of_int (if has_key (user_current_problem s) u && negb (PyStr.blank sol)
                      then balance_of s u + 10 else balance_of s u)%Z
           ++ lit " points."), s1)
  /\ show_points u s2
     = (Ok (lit "You have "
              ++ of_int (if (balance_of s u <? 50)%Z
                         then balance_of s u else balance_of s u - 50)%Z
              ++ lit " points."), s2).
Proof.
  change (check_dsa_solution u sol) with (check_dsa_solution_in final_glyphs u sol).
  change (claim_rewards u) with (claim_rewards_in final_glyphs u).
  cbv zeta. rewrite check_dsa_solution_in_eq, claim_rewards_in_eq. split.
  - destruct (has_key (user_current_problem s) u); simpl; [|reflexivity].
    destruct (PyStr.blank sol); simpl; [reflexivity|].
    unfold show_points. run_m. rewrite lookup_insert_eq. reflexivity.
  - destruct (balance_of s u <? 50)%Z; simpl; [reflexivity|].
    unfold show_points. run_m. rewrite lookup_insert_eq. reflexivity.
Qed.

End Server.

(** ** The scenarios of the specification, run on the model *)

Import PyStr.

Example show_points_unseen :
  show_points (lit "U9") initial = (Ok (lit "You have 0 points."), initial).
Proof. vm_compute. reflexivity. Qed.

Example first_request_reply :
  fst (dsa_daily_problem Sample.repr Sample.leetcode_up Sample.u1 0 initial)
  = Ok (lit "Here" ++ [0x2019%N] ++ lit "s your DSA problem: Two Sum (Easy)" ++ nl
          ++ lit "https://leetcode.com/problems/two-sum/").
Proof. vm_compute. reflexivity. Qed.

(** Requests at times 0, 3600 and 90000 make two fetches. *)
Example three_requests_two_fetches :
  requests (run Sample.repr Sample.leetcode_up
              [GetDailyProblem Sample.u1 0; GetDailyProblem Sample.u1 3600;
               GetDailyProblem Sample.u1 90000])
  = 2.
Proof. vm_compute. reflexivity. Qed.

Example claim_with_45 :
  claim_rewards Sample.u2 Sample.u2_at_45
  = (Ok (lit "Need 50 points to claim. You have 45."), Sample.u2_at_45).
Proof. vm_compute. reflexivity. Qed.

Example earn_then_claim :
  balance_of
    (snd (claim_rewards Sample.u2
            (snd (check_dsa_solution Sample.u2 (lit "return [i, j]") Sample.u2_at_45))))
    Sample.u2
  = 5%Z.
Proof. vm_compute. reflexivity. Qed.

Example blank_solution_rejected :
  check_dsa_solution Sample.u2 (lit "   " ++ [0xA0%N; 9%N]) Sample.u2_at_45
  = (Ok (lit "Please provide a valid solution."), Sample.u2_at_45).
Proof. vm_compute. reflexivity. Qed.

(** A sweep whose first fetch fails ends there: [U1], next in line, is
    not reached. *)
Example sweep_stops_at_failed_fetch :
  auto_push_daily_problems Sample.repr Sample.leetcode_down 100000 Sample.two_users
  = (Raise TransportError, with_requests S Sample.two_users).
Proof. vm_compute. reflexivity. Qed.

Example unresolved_game_no_streams :
  stream_finder Sample.repr Sample.ascii_lower Sample.helix_games_unknown
    Sample.helix_streams_six Sample.youtube_none Sample.api_key Sample.rocket_league None
  = Ok (lit "No live streams found right now.").
Proof. vm_compute. reflexivity. Qed.

Example twitch_only_by_platform :
  stream_finder Sample.repr Sample.ascii_lower Sample.helix_games_found
    Sample.helix_streams_capped Sample.youtube_one_live Sample.api_key Sample.rocket_league
    (Some (lit "Twitch"))
  = Ok (join nl (List.map (fun login =>
          lit "[Twitch] " ++ lit login ++ lit ": Ranked (https://twitch.tv/"
            ++ lit login ++ lit ")") ["a"; "b"; "c"; "d"; "e"]%string)).
Proof. vm_compute. reflexivity. Qed.

(** ** The theorems at work on the samples *)

(** C1 on the scenario of the specification: [U1], issued Two Sum at time
    0, asks again at time 3600. *)
Lemma dsa_daily_problem_cache_hit_example :
  dsa_daily_problem Sample.repr Sample.leetcode_up Sample.u1 3600 Sample.issued
  = (Ok (cached_reply Sample.repr Sample.two_sum), Sample.issued).
Proof.
  apply (dsa_daily_problem_cache_hit Sample.repr Sample.leetcode_up
           Sample.u1 3600 Sample.issued Sample.two_sum).
  - vm_compute. reflexivity.
  - vm_compute. reflexivity.
Defined.

(** C2 on the scenario: [U1], never seen before, asks at time 0. *)
Lemma dsa_daily_problem_fetch_success_example :
  fst (dsa_daily_problem Sample.repr Sample.leetcode_up Sample.u1 0 initial)
    = Ok (fresh_reply Sample.repr Sample.two_sum)
  /\ PyDict.get Sample.u1
       (user_last_request
          (snd (dsa_daily_problem Sample.repr Sample.leetcode_up Sample.u1 0 initial)))
     = Some 0%float.
Proof.
  pose proof (dsa_daily_problem_fetch_success Sample.repr Sample.leetcode_up
                Sample.u1 0 initial Sample.two_sum) as H.
  cbv zeta in H.
  destruct H as (Hreply & _ & _ & _ & _ & Hlast & _).
  - right. vm_compute. reflexivity.
  - vm_compute. reflexivity.
  - split; assumption.
Defined.

(** C3: [U1] asks 90000 seconds after the issue and LeetCode has no
    question to give. *)
Lemma dsa_daily_problem_fetch_empty_example :
  fst (dsa_daily_problem Sample.repr Sample.leetcode_empty Sample.u1 90000 Sample.issued)
    = Ok (lit "Couldn't fetch today's problem.")
  /\ user_last_request
       (snd (dsa_daily_problem Sample.repr Sample.leetcode_empty Sample.u1 90000 Sample.issued))
     = user_last_request Sample.issued.
Proof.
  pose proof (dsa_daily_problem_fetch_empty Sample.repr Sample.leetcode_empty
                Sample.u1 90000 Sample.issued) as H.
  cbv zeta in H.
  destruct H as (Hreply & Hlast & _).
  - vm_compute. reflexivity.
  - vm_compute. reflexivity.
  - split; assumption.
Defined.

(** C10: three submissions in a row by [U1]. *)
Lemma resubmission_unbounded_example :
  balance_of (snd (submit_repeatedly 3 Sample.u1 (lit "def two_sum(): ...") Sample.issued))
             Sample.u1
  = 30%Z.
Proof.
  pose proof (resubmission_unbounded 3 Sample.u1 (lit "def two_sum(): ...")
                Sample.issued Sample.two_sum) as H.
  cbv zeta in H.
  destruct H as (_ & Hbal & _).
  - vm_compute. reflexivity.
  - vm_compute. reflexivity.
  - rewrite Hbal. vm_compute. reflexivity.
Defined.


(** C8 at a payload of the usual shape with no question in it. *)
Lemma fetcher_on_upstream_failure_example :
  daily_problem_of Sample.repr (Response (Some Sample.no_question_payload)) = Ok None.
Proof.
  apply (fetcher_on_upstream_failure Sample.repr
           (Response (Some Sample.no_question_payload))).
  right. right. eexists. split; [reflexivity|].
  eexists. split; [reflexivity|].
  right. eexists. split; [vm_compute; reflexivity|].
  right. right. eexists. split; [vm_compute; reflexivity|].
  left. vm_compute. reflexivity.
Defined.

(** C8 as stated does not hold: a failed request and a body that is not
    JSON are upstream failures on which the fetcher raises. *)
Lemma fetcher_raises_on_transport_failure :
  upstream_failure TransportFailure
  /\ daily_problem_of Sample.repr TransportFailure = Raise TransportError
  /\ upstream_failure (Response None)
  /\ daily_problem_of Sample.repr (Response None) = Raise JSONDecodeError.
Proof.
  split; [left; reflexivity|]. split; [reflexivity|].
  split; [right; left; reflexivity|]. reflexivity.
Qed.



(** With an ordinary game name the same YouTube lists five. *)
Example ordinary_game_name_five_from_youtube :
  exists results,
    stream_results Sample.repr Sample.ascii_lower Sample.helix_games_unknown
      Sample.helix_streams_capped Sample.youtube_as_asked Sample.api_key
      Sample.rocket_league None
    = Ok results
    /\ length results = 5.
Proof. eexists. split; [vm_compute; reflexivity | reflexivity]. Qed.

(** Nor does the tool cut a Twitch answer down: six listed streams give
    six Twitch lines. *)
Example stream_finder_six_twitch_lines :
  exists results,
    stream_results Sample.repr Sample.ascii_lower Sample.helix_games_found
      Sample.helix_streams_six Sample.youtube_none Sample.api_key Sample.rocket_league None
    = Ok results
    /\ length results = 6
    /\ Forall (tagged (lit "[Twitch] ")) results.
Proof.
  eexists. split; [vm_compute; reflexivity|]. split; [reflexivity|].
  repeat (apply Forall_cons; split; [eexists; reflexivity|]). apply Forall_nil_2.
Qed.


(** ** Further properties, stated over the network *)

(** X17. Asked for one platform, the tool does not consult the other: for
    "twitch" the answer does not depend on what YouTube would say, for
    "youtube" it does not depend on what Twitch would say. *)
Theorem stream_finder_single_platform
    (repr : json -> pystr) (lower : pystr -> pystr)
    (games games' : pystr -> http_outcome)
    (streams streams' : json -> Z -> http_outcome)
    (get get' : pystr -> http_outcome) (key : pystr)
    (game p : pystr) :
  nonempty p = true ->
  (lower p = lit "twitch" ->
   stream_finder repr lower games streams get key game (Some p)
   = stream_finder repr lower games streams get' key game (Some p))
  /\ (lower p = lit "youtube" ->
      stream_finder repr lower games streams get key game (Some p)
      = stream_finder repr lower games' streams' get key game (Some p)).
Proof.
  intros Hp. split; intros Hl;
    unfold stream_finder, stream_results, twitch_results, youtube_results, asks_for;
    rewrite Hp, Hl; reflexivity.
Qed.

(** ** The further properties at work on the samples *)

Example fetcher_without_slug :
  daily_problem_of Sample.repr (Response (Some Sample.no_slug_payload)) = Raise KeyError.
Proof. vm_compute. reflexivity. Qed.

(** The handler under a fastmcp that binds the function to the name. *)
Example handler_takes_command_in_any_case :
  fst (handle_user_message Sample.repr Sample.ascii_lower Sample.leetcode_up true
         Sample.u2 (lit "  My Points ") 0 Sample.u2_at_45)
  = Ok (lit "You have 45 points.").
Proof. vm_compute. reflexivity. Qed.

Example handler_takes_other_text_for_a_solution :
  fst (handle_user_message Sample.repr Sample.ascii_lower Sample.leetcode_up true
         Sample.u2 (lit "claim it") 0 Sample.u2_at_45)
  = Ok (lit "Solution saved! " ++ [0xF0; 0x178; 0x17D; 0x2030]%N
          ++ lit " You now have 55 points.").
Proof. vm_compute. reflexivity. Qed.

Example one_bad_stream_spoils_the_lookup :
  stream_finder Sample.repr Sample.ascii_lower Sample.helix_games_found
    Sample.helix_streams_one_bad Sample.youtube_one_live Sample.api_key Sample.rocket_league None
  = Raise KeyError.
Proof. vm_compute. reflexivity. Qed.

(** X2: [U1] is issued Two Sum at time 0 and asks again at time 3600. *)
Lemma cooldown_after_issue_example :
  dsa_daily_problem Sample.repr Sample.leetcode_up Sample.u1 3600
    (snd (dsa_daily_problem Sample.repr Sample.leetcode_up Sample.u1 0 initial))
  = (Ok (cached_reply Sample.repr Sample.two_sum),
     snd (dsa_daily_problem Sample.repr Sample.leetcode_up Sample.u1 0 initial)).
Proof.
  pose proof (cooldown_after_issue Sample.repr Sample.leetcode_up
                Sample.u1 0 3600 initial Sample.two_sum) as H.
  cbv zeta in H. destruct H as [H _].
  - vm_compute. reflexivity.
  - vm_compute. reflexivity.
  - vm_compute. reflexivity.
  - exact H.
Defined.

(** X3: what [U1] does leaves [U2] alone. *)
Lemma tools_touch_one_user_example :
  user_view Sample.u2
    (snd (dsa_daily_problem Sample.repr Sample.leetcode_up Sample.u1 100000
            Sample.two_users_later))
  = user_view Sample.u2 Sample.two_users_later.
Proof.
  pose proof (tools_touch_one_user Sample.repr Sample.leetcode_up
                Sample.u1 Sample.u2 100000 (lit "x") Sample.two_users_later) as H.
  destruct H as [H _].
  - intros Heq. vm_compute in Heq. discriminate.
  - exact H.
Defined.

(** X5: at time 88000 [U2] is due and [U1] is not. *)
Lemma sweep_skips_not_due_example :
  user_view Sample.u1
    (snd (auto_push_daily_problems Sample.repr Sample.leetcode_up 88000 Sample.two_users))
  = user_view Sample.u1 Sample.two_users.
Proof.
  apply (sweep_skips_not_due Sample.repr Sample.leetcode_up Sample.u1 88000 Sample.two_users).
  - unfold PyDict.wf. simpl. apply NoDup_cons. split.
    + intros Hin. apply list_elem_of_In in Hin. simpl in Hin.
      destruct Hin as [Heq|[]]. vm_compute in Heq. discriminate.
    + apply NoDup_singleton.
  - intros t Ht. vm_compute in Ht. injection Ht as <-. vm_compute. reflexivity.
Defined.


(** X7 on the Two Sum payload. *)
Lemma fetcher_on_question_example :
  daily_problem_of Sample.repr (Response (Some Sample.two_sum_payload))
  = Ok (Some Sample.two_sum).
Proof.
  pose proof (fetcher_on_question Sample.repr Sample.two_sum_payload
                Sample.two_sum_challenge Sample.two_sum_question) as H.
  rewrite H.
  - vm_compute. reflexivity.
  - eexists. eexists. split; [reflexivity|]. split; vm_compute; reflexivity.
  - vm_compute. reflexivity.
  - discriminate.
Defined.


(** X11 with a platform the tool does not know. *)
Lemma stream_finder_other_platform_example :
  stream_finder Sample.repr Sample.ascii_lower Sample.helix_games_found
    Sample.helix_streams_six Sample.youtube_one_live Sample.api_key Sample.rocket_league (Some (lit "Kick"))
  = Ok (lit "No live streams found right now.").
Proof.
  apply (stream_finder_other_platform Sample.repr Sample.ascii_lower
           Sample.helix_games_found Sample.helix_streams_six Sample.youtube_one_live
           Sample.api_key Sample.rocket_league (lit "Kick")).
  - reflexivity.
  - intros Heq. vm_compute in Heq. discriminate.
  - intros Heq. vm_compute in Heq. discriminate.
Defined.

Example handler_passes_the_fetch_failure_on :
  handle_user_message Sample.repr Sample.ascii_lower Sample.leetcode_late true
    Sample.u1 (lit " DSA ") 0 initial
  = (Raise TransportError, with_requests S initial).
Proof. vm_compute. reflexivity. Qed.

(** The handler under a fastmcp that binds an object to the name. *)
Example handler_cannot_call_the_tool :
  handle_user_message Sample.repr Sample.ascii_lower Sample.leetcode_up false
    Sample.u2 (lit "  My Points ") 0 Sample.u2_at_45
  = (Raise TypeError, Sample.u2_at_45).
Proof. vm_compute. reflexivity. Qed.

Example handler_still_answers_a_stranger :
  handle_user_message Sample.repr Sample.ascii_lower Sample.leetcode_up false
    Sample.u1 (lit "hello") 0 initial
  = (Ok (lit "Type 'dsa' for today's problem."), initial).
Proof. vm_compute. reflexivity. Qed.

(** X17 with the platform given as "twitch". *)
Lemma stream_finder_single_platform_example :
  stream_finder Sample.repr Sample.ascii_lower Sample.helix_games_found
    Sample.helix_streams_capped Sample.youtube_one_live Sample.api_key Sample.rocket_league
    (Some (lit "twitch"))
  = stream_finder Sample.repr Sample.ascii_lower Sample.helix_games_found
      Sample.helix_streams_capped Sample.youtube_none Sample.api_key Sample.rocket_league
      (Some (lit "twitch")).
Proof.
  pose proof (stream_finder_single_platform Sample.repr Sample.ascii_lower
                Sample.helix_games_found Sample.helix_games_down
                Sample.helix_streams_capped Sample.helix_streams_six
                Sample.youtube_one_live Sample.youtube_none Sample.api_key
                Sample.rocket_league (lit "twitch")) as H.
  destruct H as [H _].
  - reflexivity.
  - apply H. vm_compute. reflexivity.
Defined.
